(** * Student Learning Resource Platform API: a shallow embedding of
      [main.py] (the HTTP handlers) and [schemas.py] (the record shapes),
      with the properties of the resource endpoints, the serializer and the
      diagnostics endpoint.

    Layout:
    - stored values, documents and Python's [str] on them;
    - an evaluation instance of the three library functions the handlers call
      but the repository does not define (the identifier constructor, the
      rendering of a timestamp, the store's regular-expression search);
    - the exception monad of the handlers, the store and its operations;
    - the handlers, one definition per Python function;
    - the theorems. *)

From Stdlib Require Import ZArith Lia Strings.Ascii Sorting.Sorted Structures.OrdersEx.
From stdpp Require Import base strings gmap list pretty.

Local Open Scope string_scope.
Local Open Scope Z_scope.

(** ** Stored values

    The values a study-asset document holds: [None], integers, text,
    identifiers and timestamps. An identifier is carried by its 24-digit
    rendering (what [str(oid)] gives, an injective image of its 12 bytes,
    ordered the same way); a timestamp by its instant. *)

Inductive value :=
| VNull
| VInt (n : Z)
| VStr (s : string)
| VOid (hex : string)
| VDate (t : Z).

#[global] Instance value_eq_dec : EqDecision value.
Proof. solve_decision. Defined.

(** A document is a Python [dict] from field names to values. *)
Abbreviation Doc := (gmap string value).

(** ASCII letter case, folded to lower. *)
Definition lower (c : ascii) : ascii :=
  let n := nat_of_ascii c in
  if ((65 <=? n) && (n <=? 90))%nat then ascii_of_nat (n + 32) else c.

(** ** Evaluation instance of the library functions

    [main.py] calls [bson.ObjectId(text)], [str] of a stored value and the
    store's [$regex] operator. None of the three is code of the repository:
    the development is parametric in them (see [Section api]) and this module
    gives one executable instance, on which closed examples are evaluated. *)

Module Reference.

Definition is_hex_digit (c : ascii) : bool :=
  let n := nat_of_ascii c in
  ((48 <=? n) && (n <=? 57) || (65 <=? n) && (n <=? 70)
   || (97 <=? n) && (n <=? 102))%nat.

Fixpoint map_string (f : ascii -> ascii) (s : string) : string :=
  match s with
  | EmptyString => EmptyString
  | String c s' => String (f c) (map_string f s')
  end.

Fixpoint all_chars (p : ascii -> bool) (s : string) : bool :=
  match s with
  | EmptyString => true
  | String c s' => p c && all_chars p s'
  end.

(** [ObjectId(text)] on the texts of 24 hexadecimal digits; [None] stands
    for the constructor raising [InvalidId]. *)
Definition ObjectId (s : string) : option string :=
  if (String.length s =? 24)%nat && all_chars is_hex_digit s
  then Some (map_string lower s) else None.

Definition datetime_str (t : Z) : string := "datetime:" +:+ pretty t.

(** A reader of the patterns made of ordinary characters and [.]; any
    other metacharacter is refused. Matching ignores letter case and
    searches the whole subject, as [$regex] with [$options: "i"] does. *)
Inductive atom := Lit (c : ascii) | AnyChar.

Definition is_meta (c : ascii) : bool :=
  bool_decide (c ∈ String.list_ascii_of_string "\^$.|?*+()[]{}").

(** A pattern without metacharacters. *)
Definition plain (q : string) : bool :=
  all_chars (λ c, negb (is_meta c)) q.

Fixpoint read_pattern (p : string) : option (list atom) :=
  match p with
  | EmptyString => Some []
  | String c p' =>
      if bool_decide (c = "."%char) then cons AnyChar <$> read_pattern p'
      else if is_meta c then None
      else cons (Lit (lower c)) <$> read_pattern p'
  end.

Definition atom_ok (a : atom) (c : ascii) : bool :=
  match a with
  | Lit l => bool_decide (lower c = l)
  | AnyChar => negb (bool_decide (c = "010"%char))
  end.

Fixpoint match_here (p : list atom) (s : string) : bool :=
  match p, s with
  | [], _ => true
  | _ :: _, EmptyString => false
  | a :: p', String c s' => atom_ok a c && match_here p' s'
  end.

Fixpoint search (p : list atom) (s : string) : bool :=
  match_here p s ||
  match s with
  | EmptyString => false
  | String _ s' => search p s'
  end.

Definition regex_i (pattern : string) : option (string -> bool) :=
  search <$> read_pattern pattern.

End Reference.

(** ** Exceptions and the handlers' monad

    Three classes of exception matter to the handlers: [ImportError], raised
    by [from database import ...]; [HTTPException], which the framework turns
    into a response with that status; and every other [Exception]. *)

Inductive exn :=
| ImportError (msg : string)
| Exception (msg : string)
| HTTPException (status_code : Z) (detail : string).

(** [str(e)]; the framework renders an [HTTPException] as [status: detail]. *)
Definition exn_str (e : exn) : string :=
  match e with
  | ImportError msg | Exception msg => msg
  | HTTPException c d => pretty c +:+ ": " +:+ d
  end.

Inductive outcome (A : Type) :=
| Returns (a : A)
| Raises (e : exn).
Arguments Returns {A} a.
Arguments Raises {A} e.

#[global] Instance outcome_ret : MRet outcome := λ A a, Returns a.
#[global] Instance outcome_bind : MBind outcome := λ A B f o,
  match o with
  | Returns a => f a
  | Raises e => Raises e
  end.

(** A computation over a state [S] that returns or raises; the state
    reached when the exception was raised is kept, as Python keeps the
    assignments made before a [raise]. *)
Definition M (S A : Type) : Type := S → outcome A * S.

#[global] Instance M_ret S : MRet (M S) := λ A a s, (Returns a, s).
#[global] Instance M_bind S : MBind (M S) := λ A B f c s,
  match c s with
  | (Returns a, s') => f a s'
  | (Raises e, s') => (Raises e, s')
  end.

Definition raise {S A} (e : exn) : M S A := λ s, (Raises e, s).

(** [try: body except ...: handler]. *)
Definition try_except {S A} (body : M S A) (handler : exn → M S A) : M S A :=
  λ s,
    match body s with
    | (Returns a, s') => (Returns a, s')
    | (Raises e, s') => handler e s'
    end.

Definition gets {S A} (f : S → A) : M S A := λ s, (Returns (f s), s).
Definition modify {S} (f : S → S) : M S unit := λ s, (Returns tt, f s).

(** The status line the framework answers with. *)
Definition status_of {A} (o : outcome A) : Z :=
  match o with
  | Returns _ => 200
  | Raises (HTTPException c _) => c
  | Raises _ => 500
  end.

(** ** The store

    What [from database import db] binds: a handle whose collections are
    lists of documents in insertion order, or [None] when the connection
    settings are absent. [name] is [None] for a handle without that
    attribute; [list_collection_names] is the outcome of the call of that
    name. A handle is made without a round trip to the store, so it may be
    there while the store is not: [handle_offline db e] is the world in
    which every call on the handle raises [e]. *)

Record Database := mkDatabase {
  name : option string;
  list_collection_names : outcome (list string);
  collections : gmap string (list Doc);
}.

Inductive database_module :=
| import_raises (e : exn)
| module_loaded (db : option Database)
| handle_offline (db : Database) (e : exn).

Record world := mkWorld {
  environ : gmap string string;
  database : database_module;
}.

(** [os.getenv(key)] used as a condition: set and not empty. *)
Definition getenv_truthy (w : world) (key : string) : bool :=
  match environ w !! key with
  | Some v => negb (bool_decide (v = ""))
  | None => false
  end.

(** [db[name]]. *)
Definition collection (db : Database) (cname : string) : list Doc :=
  default [] (collections db !! cname).

Definition set_collection (cname : string) (coll : list Doc) (w : world) : world :=
  match database w with
  | module_loaded (Some db) =>
      mkWorld (environ w)
        (module_loaded (Some (mkDatabase (name db) (list_collection_names db)
                                (<[cname := coll]> (collections db)))))
  | _ => w
  end.

(** [from database import db]. *)
Definition import_db : M world (option Database) := λ w,
  match database w with
  | import_raises e => (Raises e, w)
  | module_loaded db => (Returns db, w)
  | handle_offline db _ => (Returns (Some db), w)
  end.

(** An operation on [db[cname]], run on the world the handle points into.
    A read leaves the world as it is; a write stores the new content of the
    collection, and [None] stands for an operation that wrote nothing. *)
Definition read_collection {A} (cname : string)
    (op : list Doc → outcome A) : M world A := λ w,
  match database w with
  | import_raises e => (Raises e, w)
  | module_loaded None =>
      (Raises (Exception "'NoneType' object is not subscriptable"), w)
  | module_loaded (Some db) => (op (collection db cname), w)
  | handle_offline _ e => (Raises e, w)
  end.

Definition write_collection {A} (cname : string)
    (op : list Doc → outcome (A * option (list Doc))) : M world A := λ w,
  match database w with
  | import_raises e => (Raises e, w)
  | module_loaded None =>
      (Raises (Exception "'NoneType' object is not subscriptable"), w)
  | module_loaded (Some db) =>
      match op (collection db cname) with
      | Returns (a, Some coll') => (Returns a, set_collection cname coll' w)
      | Returns (a, None) => (Returns a, w)
      | Raises e => (Raises e, w)
      end
  | handle_offline _ e => (Raises e, w)
  end.

(** ** Queries, updates and cursors *)

Inductive criterion :=
| c_eq (v : value)                 (* {key: v} *)
| c_regex_i (pattern : string).    (* {key: {"$regex": pattern, "$options": "i"}} *)

Inductive clause :=
| cl_field (key : string) (c : criterion)
| cl_or (alts : list (string * criterion)).

(** A filter dict: all its clauses must hold. *)
Definition query := list clause.

(** The order the store sorts values by: an unset field sorts with [null],
    below numbers, below text, below identifiers, below dates. *)
Definition bson_rank (v : option value) : Z :=
  match v with
  | None | Some VNull => 0
  | Some (VInt _) => 1
  | Some (VStr _) => 2
  | Some (VOid _) => 3
  | Some (VDate _) => 4
  end.

Definition str_leb (a b : string) : bool :=
  match String_as_OT.compare a b with
  | Gt => false
  | _ => true
  end.

Definition bson_leb (a b : option value) : bool :=
  if bson_rank a <? bson_rank b then true
  else if bson_rank b <? bson_rank a then false
  else
    match a, b with
    | Some (VInt x), Some (VInt y) => x <=? y
    | Some (VStr x), Some (VStr y) => str_leb x y
    | Some (VOid x), Some (VOid y) => str_leb x y
    | Some (VDate x), Some (VDate y) => x <=? y
    | _, _ => true
    end.

(** [cursor.sort(key, direction)]: [-1] is descending. A stable insertion
    sort; the order among ties is the one of the collection. *)
Definition before (key : string) (direction : Z) (a b : Doc) : bool :=
  if direction <? 0 then bson_leb (b !! key) (a !! key)
  else bson_leb (a !! key) (b !! key).

Fixpoint insert_sorted (le : Doc → Doc → bool) (x : Doc) (l : list Doc) : list Doc :=
  match l with
  | [] => [x]
  | y :: l' => if le x y then x :: y :: l' else y :: insert_sorted le x l'
  end.

Definition cursor_sort (key : string) (direction : Z) (l : list Doc) : list Doc :=
  foldr (insert_sorted (before key direction)) [] l.

(** [cursor.limit(n)]: [0] is no limit; a negative [n] bounds the result by
    its absolute value. *)
Definition cursor_limit (n : Z) (l : list Doc) : list Doc :=
  if n =? 0 then l else take (Z.abs_nat n) l.

(** [$inc]: creates the field when it is unset, adds to a number, and is
    refused on anything else. *)
Definition apply_inc (field : string) (amount : Z) (d : Doc) : outcome Doc :=
  match d !! field with
  | None => Returns (<[field := VInt amount]> d)
  | Some (VInt n) => Returns (<[field := VInt (n + amount)]> d)
  | Some _ => Raises (Exception "Cannot apply $inc to a value of non-numeric type")
  end.

(** The first document that passes [t] is replaced by its update;
    the count is [matched_count]. *)
Fixpoint update_first (t : Doc → bool) (u : Doc → outcome Doc) (coll : list Doc)
    : outcome (Z * list Doc) :=
  match coll with
  | [] => Returns (0, [])
  | d :: rest =>
      if t d then d' ← u d; Returns (1, d' :: rest)
      else '(n, rest') ← update_first t u rest; Returns (n, d :: rest')
  end.

(** The document test of the filter [{"_id": oid}]. *)
Definition has_id (oid : string) (d : Doc) : bool :=
  bool_decide (d !! "_id" = Some (VOid oid)).

(** The counter of a document; a document that was never liked has none,
    which [$inc] reads as zero. *)
Definition likes_of (d : Doc) : Z :=
  match d !! "likes" with
  | Some (VInt n) => n
  | _ => 0
  end.

(** ["likes"] is unset or an integer, as the data model has it. *)
Definition likes_numeric (d : Doc) : bool :=
  match d !! "likes" with
  | None | Some (VInt _) => true
  | Some _ => false
  end.

(** The fields [q] is searched in. *)
Definition searched_fields : list string :=
  ["title"; "description"; "subject"; "exam"; "year"].

(** One of the searched fields of [d] is text that [m] accepts. *)
Definition any_field_matches (m : string → bool) (d : Doc) : bool :=
  existsb (λ key, match d !! key with Some (VStr s) => m s | _ => false end)
    searched_fields.

(** The exact-match parameter [o] of a listing, read on the field [key]:
    absent or empty, it asks nothing. *)
Definition field_is (key : string) (o : option string) (d : Doc) : bool :=
  match o with
  | Some s => if bool_decide (s = "") then true
              else bool_decide (d !! key = Some (VStr s))
  | None => true
  end.

(** The sort key of a returned item, and the order of a listing: no item is
    followed by a newer one. *)
Definition created_at_of (item : option Doc) : option value :=
  d ← item; d !! "created_at".

Definition newest_first (a b : option Doc) : Prop :=
  bson_leb (created_at_of b) (created_at_of a) = true.

(** The spec's reading of [q]: [s] contains [q] letter for letter, the case
    of ASCII letters apart. *)
Fixpoint starts_with_ci (q s : string) : bool :=
  match q, s with
  | EmptyString, _ => true
  | String _ _, EmptyString => false
  | String a q', String b s' =>
      bool_decide (lower a = lower b) && starts_with_ci q' s'
  end.

Fixpoint contains_ci (q s : string) : bool :=
  starts_with_ci q s ||
  match s with
  | EmptyString => false
  | String _ s' => contains_ci q s'
  end.

(** ** The request body of [POST /api/resources]

    [class CreateResource(BaseModel)]: two required strings and eight
    optional ones. *)

Record CreateResource := mkCreateResource {
  title : string;
  description : option string;
  subject : option string;
  class_ : option string;
  exam : option string;
  year : option string;
  file_url : string;
  thumbnail_url : option string;
  type : option string;
  uploader_id : option string;
}.

(** A JSON value of a request body, as far as validation tells them apart. *)
Inductive json :=
| JNull
| JBool (b : bool)
| JNumber (n : Z)
| JString (s : string)
| JNested.

Definition required_str (body : gmap string json) (key : string) : option string :=
  match body !! key with
  | Some (JString s) => Some s
  | _ => None
  end.

Definition optional_str (body : gmap string json) (key : string)
    : option (option string) :=
  match body !! key with
  | None | Some JNull => Some None
  | Some (JString s) => Some (Some s)
  | Some _ => None
  end.

(** Validation of a body against [CreateResource]: every field is read
    under its own name (the model declares no alias), keys that name no
    field are ignored, and [None] stands for the validation error the
    framework answers with status 422. *)
Definition CreateResource_validate (body : gmap string json) : option CreateResource :=
  t ← required_str body "title";
  d ← optional_str body "description";
  s ← optional_str body "subject";
  c ← optional_str body "class_";
  e ← optional_str body "exam";
  y ← optional_str body "year";
  f ← required_str body "file_url";
  th ← optional_str body "thumbnail_url";
  ty ← optional_str body "type";
  u ← optional_str body "uploader_id";
  Some (mkCreateResource t d s c e y f th ty u).

Definition opt_value (o : option string) : value :=
  match o with
  | Some s => VStr s
  | None => VNull
  end.

(** [payload.model_dump(by_alias=True)]: no field has an alias, so each is
    dumped under its name. *)
Definition model_dump (p : CreateResource) : Doc :=
  <["title" := VStr (title p)]>
  (<["description" := opt_value (description p)]>
  (<["subject" := opt_value (subject p)]>
  (<["class_" := opt_value (class_ p)]>
  (<["exam" := opt_value (exam p)]>
  (<["year" := opt_value (year p)]>
  (<["file_url" := VStr (file_url p)]>
  (<["thumbnail_url" := opt_value (thumbnail_url p)]>
  (<["type" := opt_value (type p)]>
  (<["uploader_id" := opt_value (uploader_id p)]> ∅))))))))).

(** ** The diagnostics handler, [GET /test] *)

(** The values of the diagnostics dict. *)
Inductive rvalue :=
| RNone
| RStr (s : string)
| RList (l : list string).

(** The handler's locals (the [response] dict) next to the world. *)
Abbreviation diag := (gmap string rvalue * world)%type.

Definition assign (key : string) (v : rvalue) : M diag unit :=
  modify (λ st : diag, (<[key := v]> st.1, st.2)).

Definition in_world {A} (c : M world A) : M diag A := λ st,
  let '(o, w') := c st.2 in (o, (st.1, w')).

Definition set_or_not (w : world) (key : string) : rvalue :=
  if getenv_truthy w key then RStr "✅ Set" else RStr "❌ Not Set".

(** [db.list_collection_names()]. *)
Definition call_list_collection_names (db : Database) : M diag (list string) :=
  λ st,
    match database st.2 with
    | handle_offline _ e => (Raises e, st)
    | _ => (list_collection_names db, st)
    end.

(** [text[:n]]: the first [n] characters of a Python [str]. The text is
    carried by its UTF-8 bytes, so a character is a leading byte with the
    continuation bytes that follow it. *)
Definition is_continuation (c : ascii) : bool :=
  let k := nat_of_ascii c in ((128 <=? k) && (k <? 192))%nat.

Fixpoint py_slice (n : nat) (s : string) : string :=
  match s with
  | EmptyString => EmptyString
  | String c s' =>
      if is_continuation c then String c (py_slice n s')
      else match n with
           | O => EmptyString
           | S n' => String c (py_slice n' s')
           end
  end.

(** [len(text)]: the bytes that are not continuation bytes. *)
Fixpoint characters (s : string) : nat :=
  match s with
  | EmptyString => 0
  | String c s' => (if is_continuation c then 0 else 1) + characters s'
  end.

Definition test_database : M world (gmap string rvalue) := λ w,
  let response : gmap string rvalue :=
    <["backend" := RStr "✅ Running"]>
    (<["database" := RStr "❌ Not Available"]>
    (<["database_url" := RNone]>
    (<["database_name" := RNone]>
    (<["connection_status" := RStr "Not Connected"]>
    (<["collections" := RList []]> ∅))))) in
  let body : M diag (gmap string rvalue) :=
    try_except
      (db ← in_world import_db;
       match db with
       | Some db =>
           assign "database" (RStr "✅ Available");;
           url ← gets (λ st : diag, set_or_not st.2 "DATABASE_URL");
           assign "database_url" url;;
           assign "database_name"
             (RStr (if name db is Some n then n else "✅ Connected"));;
           assign "connection_status" (RStr "Connected");;
           try_except
             (collections ← call_list_collection_names db;
              assign "collections" (RList (take 10 collections));;
              assign "database" (RStr "✅ Connected & Working"))
             (λ e, assign "database"
                     (RStr ("⚠️  Connected but Error: " +:+ py_slice 50 (exn_str e))))
       | None => assign "database" (RStr "⚠️  Available but not initialized")
       end)
      (λ e, match e with
            | ImportError _ => assign "database" (RStr "❌ Database module not found")
            | _ => assign "database"
                     (RStr ("❌ Error: " +:+ py_slice 50 (exn_str e)))
            end);;
    url ← gets (λ st : diag, set_or_not st.2 "DATABASE_URL");
    assign "database_url" url;;
    dbname ← gets (λ st : diag, set_or_not st.2 "DATABASE_NAME");
    assign "database_name" dbname;;
    gets (λ st : diag, st.1) in
  let '(o, st) := body (response, w) in (o, st.2).

(** What the collection holds for a payload created under [new_id] at
    [now], and what a fetch of it answers. *)
Definition stored_doc (payload : CreateResource) (new_id : string) (now : Z)
    : Doc :=
  <["_id" := VOid new_id]>
  (<["created_at" := VDate now]> (<["likes" := VInt 0]> (model_dump payload))).

Definition fetched_doc (payload : CreateResource) (new_id : string) (now : Z)
    : Doc :=
  <["id" := VStr new_id]> (delete "_id" (stored_doc payload new_id now)).

(** The handle is there: the module loaded and [db] is not [None]. *)
Definition connected (w : world) : bool :=
  match database w with
  | module_loaded (Some _) | handle_offline _ _ => true
  | _ => false
  end.

(** The store can be reached: the handle is there and the store answers
    the call that lists its collections. *)
Definition store_answers (w : world) : bool :=
  match database w with
  | module_loaded (Some db) =>
      if list_collection_names db is Returns _ then true else false
  | _ => false
  end.

(** The documents of the study-asset collection, none when there is no
    handle. *)
Definition documents (w : world) : list Doc :=
  match database w with
  | module_loaded (Some db) | handle_offline db _ => collection db "studyasset"
  | _ => []
  end.

(** Every document of [l] that is stored under an identifier is still in
    [l'] under that identifier, with a counter that is no lower and every
    other field as it was. *)
Definition kept (l l' : list Doc) : Prop :=
  ∀ oid d, List.find (has_id oid) l = Some d →
    ∃ d', List.find (has_id oid) l' = Some d'
          ∧ likes_of d ≤ likes_of d'
          ∧ ∀ k, k ≠ "likes" → d' !! k = d !! k.

(** The names of the fields of [CreateResource]. *)
Definition field_names : list string :=
  ["title"; "description"; "subject"; "class_"; "exam"; "year";
   "file_url"; "thumbnail_url"; "type"; "uploader_id"].

Definition json_of_opt (o : option string) : json :=
  match o with
  | Some s => JString s
  | None => JNull
  end.

(** The JSON object that spells out every field of a payload. *)
Definition body_of (p : CreateResource) : gmap string json :=
  <["title" := JString (title p)]>
  (<["description" := json_of_opt (description p)]>
  (<["subject" := json_of_opt (subject p)]>
  (<["class_" := json_of_opt (class_ p)]>
  (<["exam" := json_of_opt (exam p)]>
  (<["year" := json_of_opt (year p)]>
  (<["file_url" := JString (file_url p)]>
  (<["thumbnail_url" := json_of_opt (thumbnail_url p)]>
  (<["type" := json_of_opt (type p)]>
  (<["uploader_id" := json_of_opt (uploader_id p)]> ∅))))))))).

(** A body value that a required text field accepts, and one that an
    optional text field accepts. *)
Definition is_text (j : option json) : bool :=
  match j with
  | Some (JString _) => true
  | _ => false
  end.

Definition is_text_or_null (j : option json) : bool :=
  match j with
  | None | Some JNull | Some (JString _) => true
  | Some _ => false
  end.

(** What the [except] clauses of the resource handlers raise for an
    exception of their body: an [HTTPException] as it is, any other exception
    as a 500 with its text. *)
Definition reraised (e : exn) : exn :=
  match e with
  | HTTPException _ _ => e
  | _ => HTTPException 500 (exn_str e)
  end.

(** An outcome the framework answers as the handler meant it: a value, or an
    [HTTPException]. *)
Definition answered {A} (o : outcome A) : Prop :=
  match o with
  | Returns _ | Raises (HTTPException _ _) => True
  | Raises _ => False
  end.

(** The optional fields of [CreateResource], and the bodies validation
    accepts: text under both required names, text, [null] or nothing under
    each optional one. *)
Definition optional_names : list string :=
  ["description"; "subject"; "class_"; "exam"; "year"; "thumbnail_url";
   "type"; "uploader_id"].

Definition body_accepted (body : gmap string json) : bool :=
  is_text (body !! "title") && is_text (body !! "file_url")
  && forallb (λ k, is_text_or_null (body !! k)) optional_names.

(** Documents and worlds on which closed examples are evaluated. *)
Module Examples.

Definition oid1 : string := "0123456789abcdef01234567".
Definition oid2 : string := "89abcdef0123456789abcdef".

Definition algebra : Doc :=
  <["_id" := VOid oid1]> (<["title" := VStr "Algebra Notes"]>
  (<["file_url" := VStr "http://x/y.pdf"]>
  (<["created_at" := VDate 1700000000]> ∅))).

(** A document that has not been given an identifier. *)
Definition draft : Doc :=
  <["title" := VStr "Draft"]> (<["likes" := VInt 3]> ∅).

(** A document that stores an ["id"] of its own next to ["_id"]. *)
Definition legacy : Doc :=
  <["_id" := VOid oid1]> (<["id" := VStr "x"]> ∅).

(** The body of the spec's example, and one that also supplies
    ["class"]. *)
Definition notes : CreateResource :=
  mkCreateResource "Algebra Notes" None None None None None "http://x/y.pdf"
    None None None.

Definition body_with_class : gmap string json :=
  <["title" := JString "Algebra Notes"]>
  (<["file_url" := JString "http://x/y.pdf"]>
  (<["class" := JString "10"]> ∅)).

(** A document whose counter was stored as text. *)
Definition mislabeled : Doc :=
  <["_id" := VOid oid2]> (<["title" := VStr "Mind Map"]>
  (<["subject" := VStr "Math"]> (<["type" := VStr "notes"]>
  (<["likes" := VStr "many"]> ∅)))).

(** Two documents that the exact-match parameters tell apart. *)
Definition math_notes : Doc :=
  <["_id" := VOid oid1]> (<["title" := VStr "Sets"]>
  (<["subject" := VStr "Math"]> (<["type" := VStr "notes"]> ∅))).

Definition math_paper : Doc :=
  <["_id" := VOid oid2]> (<["title" := VStr "Finals"]>
  (<["subject" := VStr "Math"]> (<["type" := VStr "past_paper"]> ∅))).

Definition store_of (docs : list Doc) : world :=
  mkWorld ∅ (module_loaded (Some (mkDatabase (Some "studyhub")
    (Returns ["studyasset"]) {["studyasset" := docs]}))).

(** The settings are absent: the module loads and [db] is [None]. *)
Definition unconfigured : world := mkWorld ∅ (module_loaded None).

(** The handle is there and the listing of the collections is refused. *)
Definition listing_fails : world :=
  mkWorld ∅ (module_loaded (Some (mkDatabase (Some "studyhub")
    (Raises (Exception "connection refused")) {["studyasset" := [algebra]]}))).

(** The handle is there and the store is not. *)
Definition offline : world :=
  mkWorld ∅ (handle_offline
    (mkDatabase (Some "studyhub") (Returns ["studyasset"])
       {["studyasset" := [algebra]]})
    (Exception "No servers found yet")).

End Examples.


(** ** The resource handlers *)

Section api.

(** [bson.ObjectId(text)]: the identifier, or [None] when the constructor
    raises. *)
Variable ObjectId : string -> option string.
(** [str] of a [datetime]. *)
Variable datetime_str : Z -> string.
(** The store's regular-expression search with option [i]: the matcher of
    a pattern, or [None] when the store rejects the pattern. *)
Variable regex_i : string -> option (string -> bool).

(** Python's [str] on a stored value. *)
Definition py_str (v : value) : string :=
  match v with
  | VNull => "None"
  | VInt n => pretty n
  | VStr s => s
  | VOid hex => hex
  | VDate t => datetime_str t
  end.

(** [serialize_doc(doc)]: [None] and the empty dict are falsy and are
    returned as they are; otherwise a copy whose ["_id"] is popped and
    stored, as text, under ["id"]. *)
Definition serialize_doc (doc : option Doc) : option Doc :=
  match doc with
  | None => None
  | Some doc =>
      if bool_decide (doc = ∅) then Some doc
      else
        let d := doc in
        match d !! "_id" with
        | Some v => Some (<["id" := VStr (py_str v)]> (delete "_id" d))
        | None => Some d
        end
  end.

(** *** Store operations *)

(** What a criterion asks of the value under its key ([None]: unset).
    Equality reads an unset field as [null]; a regular expression matches
    text only, and a pattern the store rejects fails the whole query. *)
Definition field_test (c : criterion) : option (option value → bool) :=
  match c with
  | c_eq v => Some (λ f, bool_decide (default VNull f = v))
  | c_regex_i pattern =>
      m ← regex_i pattern;
      Some (λ f, match f with Some (VStr s) => m s | _ => false end)
  end.

Definition keyed_test (kc : string * criterion) : option (Doc → bool) :=
  t ← field_test kc.2; Some (λ d : Doc, t (d !! kc.1)).

Definition clause_test (cl : clause) : option (Doc → bool) :=
  match cl with
  | cl_field key c => keyed_test (key, c)
  | cl_or alts =>
      ts ← mapM keyed_test alts;
      if ts is [] then None else Some (λ d, existsb (λ t : Doc → bool, t d) ts)
  end.

Definition query_test (q : query) : option (Doc → bool) :=
  ts ← mapM clause_test q; Some (λ d, forallb (λ t : Doc → bool, t d) ts).

Definition compile (q : query) : outcome (Doc → bool) :=
  match query_test q with
  | Some t => Returns t
  | None => Raises (Exception "OperationFailure: the query is not valid")
  end.

(** [db[cname].find(q).sort(key, direction).limit(n)], iterated. *)
Definition find_sort_limit (cname : string) (q : query) (key : string)
    (direction n : Z) : M world (list Doc) :=
  read_collection cname (λ coll,
    t ← compile q;
    Returns (cursor_limit n (cursor_sort key direction (List.filter t coll)))).

(** [db[cname].find_one(q)]. *)
Definition find_one (cname : string) (q : query) : M world (option Doc) :=
  read_collection cname (λ coll, t ← compile q; Returns (List.find t coll)).

(** [db[cname].update_one(q, {"$inc": {field: amount}}).matched_count];
    nothing is written when no document matches. *)
Definition update_one_inc (cname : string) (q : query) (field : string)
    (amount : Z) : M world Z :=
  write_collection cname (λ coll,
    t ← compile q;
    '(n, coll') ← update_first t (apply_inc field amount) coll;
    Returns (n, if n =? 0 then None else Some coll')).

(** [db[cname].insert_one(doc).inserted_id]: a document without ["_id"]
    gets the generated identifier; an ["_id"] already in the collection is
    refused. *)
Definition insert_one (cname : string) (doc : Doc) (new_id : string)
    : M world value :=
  write_collection cname (λ coll,
    let _id := default (VOid new_id) (doc !! "_id") in
    if existsb (λ d : Doc, bool_decide (d !! "_id" = Some _id)) coll
    then Raises (Exception "E11000 duplicate key error")
    else Returns (_id, Some (coll ++ [<["_id" := _id]> doc])%list)).

(** Modelled from the spec: [database.create_document], which
    [create_resource] imports and which is not among the sources. The spec
    has the store keep a new document, assign an identifier and return it,
    and has a creation leave the client's fields with [likes = 0] and
    [created_at = now] if unset; an unconfigured store fails the request.
    [new_id] is the identifier generated for this insertion and [now] the
    clock reading. *)
Definition create_document (collection_name : string) (data : Doc)
    (new_id : string) (now : Z) : M world string :=
  db ← import_db;
  (if db is None then raise (Exception "Database not available") else mret tt);;
  let with_likes :=
    if data !! "likes" is None then <["likes" := VInt 0]> data else data in
  let data_dict :=
    if with_likes !! "created_at" is None
    then <["created_at" := VDate now]> with_likes
    else with_likes in
  inserted_id ← insert_one collection_name data_dict new_id;
  mret (py_str inserted_id).

(** *** [GET /api/resources] *)

Definition truthy (o : option string) : bool :=
  match o with
  | Some s => negb (bool_decide (s = ""))
  | None => false
  end.

Definition filter_query (q subject type : option string) : query :=
  ((if truthy q then
      [cl_or (map (λ key, (key, c_regex_i (default "" q)))
                  ["title"; "description"; "subject"; "exam"; "year"])]
    else [])
   ++ (if truthy subject
       then [cl_field "subject" (c_eq (VStr (default "" subject)))] else [])
   ++ (if truthy type
       then [cl_field "type" (c_eq (VStr (default "" type)))] else []))%list.

Definition list_resources (q subject type : option string) (limit : Z)
    : M world (list (option Doc)) :=
  try_except
    (db ← import_db;
     (if db is None then raise (HTTPException 500 "Database not configured")
      else mret tt);;
     cursor ← find_sort_limit "studyasset" (filter_query q subject type)
                "created_at" (-1) limit;
     mret (map (λ doc, serialize_doc (Some doc)) cursor))
    (λ e, match e with
          | HTTPException _ _ => raise e
          | _ => raise (HTTPException 500 (exn_str e))
          end).

(** The route: [limit] defaults to 24 when the query string has none. *)
Definition get_resources (q subject type : option string) (limit : option Z)
    : M world (list (option Doc)) :=
  list_resources q subject type (default 24 limit).

(** *** [POST /api/resources] *)

Definition create_resource (payload : CreateResource) (new_id : string)
    (now : Z) : M world string :=
  try_except
    (create_document "studyasset" (model_dump payload) new_id now)
    (λ e, raise (HTTPException 500 (exn_str e))).

(** The route: the body is validated before the handler runs. *)
Definition post_resources (body : gmap string json) (new_id : string)
    (now : Z) : M world string :=
  match CreateResource_validate body with
  | Some payload => create_resource payload new_id now
  | None => raise (HTTPException 422 "Unprocessable Entity")
  end.

(** *** [GET /api/resources/{resource_id}] *)

(** [ObjectId(resource_id)] as a call that may raise. *)
Definition construct_oid (resource_id : string) : M world string :=
  match ObjectId resource_id with
  | Some oid => mret oid
  | None => raise (Exception "InvalidId")
  end.

(** [not doc]. *)
Definition falsy (doc : option Doc) : bool :=
  match doc with
  | None => true
  | Some d => bool_decide (d = ∅)
  end.

Definition get_resource (resource_id : string) : M world (option Doc) :=
  try_except
    (db ← import_db;
     (if db is None then raise (HTTPException 500 "Database not configured")
      else mret tt);;
     oid ← try_except (construct_oid resource_id)
              (λ _, raise (HTTPException 400 "Invalid id"));
     doc ← find_one "studyasset" [cl_field "_id" (c_eq (VOid oid))];
     (if falsy doc then raise (HTTPException 404 "Resource not found")
      else mret tt);;
     mret (serialize_doc doc))
    (λ e, match e with
          | HTTPException _ _ => raise e
          | _ => raise (HTTPException 500 (exn_str e))
          end).

(** *** [POST /api/resources/{resource_id}/like] *)

Definition like_resource (resource_id : string) : M world (option Doc) :=
  try_except
    (db ← import_db;
     (if db is None then raise (HTTPException 500 "Database not configured")
      else mret tt);;
     oid ← try_except (construct_oid resource_id)
              (λ _, raise (HTTPException 400 "Invalid id"));
     matched_count ← update_one_inc "studyasset"
                       [cl_field "_id" (c_eq (VOid oid))] "likes" 1;
     (if matched_count =? 0 then raise (HTTPException 404 "Resource not found")
      else mret tt);;
     doc ← find_one "studyasset" [cl_field "_id" (c_eq (VOid oid))];
     mret (serialize_doc doc))
    (λ e, match e with
          | HTTPException _ _ => raise e
          | _ => raise (HTTPException 500 (exn_str e))
          end).

(** *** Requests

    One request of each route, and the world it leaves behind. The
    identifier and the clock reading of a creation are part of the request. *)

Inductive request :=
| GetResources (q subject type : option string) (limit : option Z)
| PostResources (body : gmap string json) (new_id : string) (now : Z)
| GetResource (resource_id : string)
| PostLike (resource_id : string)
| GetTest.

Definition serve (w : world) (r : request) : world :=
  match r with
  | GetResources q subject type limit => (get_resources q subject type limit w).2
  | PostResources body new_id now => (post_resources body new_id now w).2
  | GetResource resource_id => (get_resource resource_id w).2
  | PostLike resource_id => (like_resource resource_id w).2
  | GetTest => (test_database w).2
  end.

(** Every counter of the collection is unset or an integer. *)
Definition counters_numeric (w : world) : Prop :=
  match database w with
  | module_loaded (Some db) =>
      Forall (λ d, likes_numeric d = true) (collection db "studyasset")
  | _ => True
  end.

(** ** Properties of [serialize_doc] *)

Lemma serialize_doc_with_id (d : Doc) v :
  d !! "_id" = Some v →
  serialize_doc (Some d) = Some (<["id" := VStr (py_str v)]> (delete "_id" d)).
Proof.
  intros Hid. unfold serialize_doc.
  rewrite bool_decide_eq_false_2; [by rewrite Hid|].
  intros ->. by rewrite lookup_empty in Hid.
Qed.

Lemma serialize_doc_without_id (d : Doc) :
  d !! "_id" = None → serialize_doc (Some d) = Some d.
Proof.
  intros Hid. unfold serialize_doc. case_bool_decide; [done|]. by rewrite Hid.
Qed.

Lemma serialize_doc_no_internal_id (doc out : Doc) :
  serialize_doc (Some doc) = Some out → out !! "_id" = None.
Proof.
  destruct (doc !! "_id") as [v|] eqn:Hid.
  - rewrite (serialize_doc_with_id _ v Hid). intros [= <-].
    rewrite lookup_insert_ne; [|done]. by rewrite lookup_delete_eq.
  - rewrite (serialize_doc_without_id _ Hid). by intros [= <-].
Qed.

(** C9 (as amended): serialization of a document that has an ["_id"]
    yields a document without ["_id"] whose ["id"] is the text of the
    identifier, a value already stored under ["id"] being replaced, and in
    which every key other than ["_id"] and ["id"] keeps its value; a
    document without ["_id"] is returned as it is. *)
Theorem serialize_doc_frame (d : Doc) :
  match d !! "_id" with
  | Some v =>
      ∃ out, serialize_doc (Some d) = Some out
             ∧ out !! "id" = Some (VStr (py_str v))
             ∧ out !! "_id" = None
             ∧ ∀ k, k ≠ "_id" → k ≠ "id" → out !! k = d !! k
  | None => serialize_doc (Some d) = Some d
  end.
Proof.
  destruct (d !! "_id") as [v|] eqn:Hid.
  - eexists. split; [by apply serialize_doc_with_id|].
    split; [by rewrite lookup_insert_eq|].
    split.
    + rewrite lookup_insert_ne; [|done]. by rewrite lookup_delete_eq.
    + intros k Hk1 Hk2.
      rewrite lookup_insert_ne; [|done]. by rewrite lookup_delete_ne.
  - by apply serialize_doc_without_id.
Qed.

(** C10: serializing twice is serializing once; a document without
    ["_id"] is returned unchanged; so are the empty document and the
    absent one. *)
Theorem serialize_doc_idempotent (doc : option Doc) :
  serialize_doc (serialize_doc doc) = serialize_doc doc
  ∧ (∀ d : Doc, d !! "_id" = None → serialize_doc (Some d) = Some d)
  ∧ serialize_doc (Some ∅) = Some ∅
  ∧ serialize_doc None = None.
Proof.
  split; [|split; [apply serialize_doc_without_id|done]].
  destruct doc as [d|]; [|done].
  destruct (serialize_doc (Some d)) as [out|] eqn:Hout; [|done].
  apply serialize_doc_without_id. by eapply serialize_doc_no_internal_id.
Qed.

(** ** The sort order *)

Lemma str_leb_iff a b :
  str_leb a b = true ↔ a = b ∨ String_as_OT.lt a b.
Proof.
  destruct String_as_OT.lt_strorder as [Hirr Htr].
  unfold str_leb. destruct (String_as_OT.compare_spec a b) as [E|L|G]; split;
    try (intros; by auto); try done.
  intros [->|L]; exfalso; [by apply (Hirr b)|].
  apply (Hirr a). by apply (Htr a b a).
Qed.

Lemma str_leb_total a b : str_leb a b = true ∨ str_leb b a = true.
Proof.
  rewrite !str_leb_iff.
  destruct (String_as_OT.compare_spec a b); auto.
Qed.

Lemma str_leb_trans a b c :
  str_leb a b = true → str_leb b c = true → str_leb a c = true.
Proof.
  destruct String_as_OT.lt_strorder as [_ Htr].
  rewrite !str_leb_iff. intros [->|L1] [->|L2]; auto.
  right. by apply (Htr a b c).
Qed.

Lemma bson_leb_total a b : bson_leb a b = true ∨ bson_leb b a = true.
Proof.
  destruct a as [[]|], b as [[]|]; cbn; auto using str_leb_total;
    rewrite !Z.leb_le; lia.
Qed.

Lemma bson_leb_trans a b c :
  bson_leb a b = true → bson_leb b c = true → bson_leb a c = true.
Proof.
  destruct a as [[]|], b as [[]|], c as [[]|]; cbn; try done;
    eauto using str_leb_trans; rewrite !Z.leb_le; lia.
Qed.

(** Nothing sorts below an unset field. *)
Lemma bson_leb_unset v : bson_leb None v = true.
Proof. by destruct v as [[]|]. Qed.

Lemma before_total key direction a b :
  before key direction a b = true ∨ before key direction b a = true.
Proof. unfold before. destruct (direction <? 0); apply bson_leb_total. Qed.

Lemma before_trans key direction a b c :
  before key direction a b = true → before key direction b c = true →
  before key direction a c = true.
Proof.
  unfold before. destruct (direction <? 0); eauto using bson_leb_trans.
Qed.

(** ** Sorted cursors *)

Lemma insert_sorted_perm le x (l : list Doc) : insert_sorted le x l ≡ₚ x :: l.
Proof.
  induction l as [|y l IH]; cbn; [done|]. destruct (le x y); [done|].
  rewrite IH. apply Permutation_swap.
Qed.

Lemma cursor_sort_perm key direction (l : list Doc) :
  cursor_sort key direction l ≡ₚ l.
Proof.
  unfold cursor_sort. induction l as [|x l IH]; cbn; [done|].
  by rewrite insert_sorted_perm, IH.
Qed.

Lemma insert_sorted_sorted (le : Doc → Doc → bool) x l :
  (∀ a b, le a b = true ∨ le b a = true) →
  (∀ a b c, le a b = true → le b c = true → le a c = true) →
  StronglySorted (λ a b, le a b = true) l →
  StronglySorted (λ a b, le a b = true) (insert_sorted le x l).
Proof.
  intros Htot Htrans. induction 1 as [|y l Hs IH Hall]; cbn.
  - repeat constructor.
  - destruct (le x y) eqn:Hxy.
    + constructor; [by constructor|]. constructor; [done|].
      eapply Forall_impl; [exact Hall|]. intros z Hz. by eapply Htrans.
    + constructor; [done|]. rewrite insert_sorted_perm.
      constructor; [|done]. destruct (Htot x y); congruence.
Qed.

Lemma cursor_sort_sorted key direction (l : list Doc) :
  StronglySorted (λ a b, before key direction a b = true)
    (cursor_sort key direction l).
Proof.
  unfold cursor_sort. induction l as [|x l IH]; cbn; [constructor|].
  apply insert_sorted_sorted;
    eauto using before_total, before_trans.
Qed.

Lemma StronglySorted_take_docs {A} (R : A → A → Prop) n (l : list A) :
  StronglySorted R l → StronglySorted R (take n l).
Proof.
  intros Hs. revert n. induction Hs as [|x l Hs IH Hall]; intros [|n]; cbn;
    try constructor; [by apply IH|].
  eapply Forall_forall. intros y Hy. eapply Forall_forall in Hall; [done|].
  by eapply subseteq_take.
Qed.

Lemma StronglySorted_map_items {A B} (R : B → B → Prop) (f : A → B) (l : list A) :
  StronglySorted (λ a b, R (f a) (f b)) l → StronglySorted R (map f l).
Proof.
  induction 1 as [|x l Hs IH Hall]; cbn; constructor; [done|].
  by apply Forall_fmap.
Qed.

Lemma cursor_limit_sorted {R : Doc → Doc → Prop} n l :
  StronglySorted R l → StronglySorted R (cursor_limit n l).
Proof.
  unfold cursor_limit. destruct (n =? 0); [done|].
  apply StronglySorted_take_docs.
Qed.

Lemma cursor_limit_length n (l : list Doc) :
  0 < n → Z.of_nat (length (cursor_limit n l)) ≤ n.
Proof.
  intros Hn. unfold cursor_limit.
  destruct (Z.eqb_spec n 0) as [->|_]; [lia|].
  rewrite length_take. lia.
Qed.

Lemma created_at_of_serialize_doc (d : Doc) :
  created_at_of (serialize_doc (Some d)) = d !! "created_at".
Proof.
  destruct (d !! "_id") as [v|] eqn:Hid.
  - rewrite (serialize_doc_with_id _ v Hid). cbn.
    rewrite lookup_insert_ne; [|done]. by rewrite lookup_delete_ne.
  - by rewrite (serialize_doc_without_id _ Hid).
Qed.

(** ** Lookups by identifier *)

Lemma compile_by_id oid :
  ∃ t, compile [cl_field "_id" (c_eq (VOid oid))] = Returns t
       ∧ ∀ d, t d = has_id oid d.
Proof.
  eexists. split; [reflexivity|]. intros d. cbn. unfold has_id.
  rewrite andb_true_r. apply bool_decide_ext.
  destruct (d !! "_id"); cbn; split; congruence.
Qed.

Lemma find_ext_eq (t t' : Doc → bool) (l : list Doc) :
  (∀ d, t d = t' d) → List.find t l = List.find t' l.
Proof. intros E. induction l as [|d l IH]; cbn; [done|]. by rewrite E, IH. Qed.

Lemma update_first_ext (t t' : Doc → bool) u (l : list Doc) :
  (∀ d, t d = t' d) → update_first t u l = update_first t' u l.
Proof. intros E. induction l as [|d l IH]; cbn; [done|]. by rewrite E, IH. Qed.

Lemma update_first_none t u (l : list Doc) :
  List.find t l = None → update_first t u l = Returns (0, l).
Proof.
  induction l as [|d l IH]; cbn; [done|].
  destruct (t d); [done|]. intros H. by rewrite (IH H).
Qed.

Lemma find_one_by_id w db oid :
  database w = module_loaded (Some db) →
  find_one "studyasset" [cl_field "_id" (c_eq (VOid oid))] w
  = (Returns (List.find (has_id oid) (collection db "studyasset")), w).
Proof.
  intros Hdb. unfold find_one, read_collection. rewrite Hdb.
  destruct (compile_by_id oid) as (t & -> & Ht). cbn.
  by rewrite (find_ext_eq _ _ _ Ht).
Qed.

(** ** The store offline *)

Lemma get_resource_offline w db e resource_id :
  database w = handle_offline db e →
  get_resource resource_id w
  = (Raises (if ObjectId resource_id is Some _ then reraised e
             else HTTPException 400 "Invalid id"), w).
Proof.
  intros Hdb.
  unfold get_resource, try_except, mbind, M_bind, import_db, construct_oid.
  rewrite Hdb. destruct (ObjectId resource_id) as [oid|]; [|done].
  cbn. unfold find_one, read_collection. rewrite Hdb. by destruct e.
Qed.

Lemma like_resource_offline w db e resource_id :
  database w = handle_offline db e →
  like_resource resource_id w
  = (Raises (if ObjectId resource_id is Some _ then reraised e
             else HTTPException 400 "Invalid id"), w).
Proof.
  intros Hdb.
  unfold like_resource, try_except, mbind, M_bind, import_db, construct_oid.
  rewrite Hdb. destruct (ObjectId resource_id) as [oid|]; [|done].
  cbn. unfold update_one_inc, write_collection. rewrite Hdb. by destruct e.
Qed.

Lemma list_resources_offline w db e q subject type limit :
  database w = handle_offline db e →
  list_resources q subject type limit w = (Raises (reraised e), w).
Proof.
  intros Hdb.
  unfold list_resources, try_except, mbind, M_bind, import_db.
  rewrite Hdb. cbn -[filter_query].
  unfold find_sort_limit, read_collection. rewrite Hdb. by destruct e.
Qed.

(** ** Malformed and unknown identifiers *)

(** C3 (as amended): with the store configured, an id that the
    identifier constructor refuses is answered with 400 by both handlers;
    with the module loaded and [db] unset, the first guard answers 500 before
    the id is looked at. Either way the world is left as it was. *)
Theorem malformed_id_is_400 w db resource_id :
  database w = module_loaded db →
  ObjectId resource_id = None →
  let answer :=
    if db is Some _ then HTTPException 400 "Invalid id"
    else HTTPException 500 "Database not configured" in
  get_resource resource_id w = (Raises answer, w)
  ∧ like_resource resource_id w = (Raises answer, w).
Proof.
  intros Hdb Hoid.
  unfold get_resource, like_resource, try_except, mbind, M_bind, import_db,
    construct_oid.
  rewrite Hdb, Hoid. by destruct db.
Qed.

(** C4: with the store configured, a well-formed id that no document of
    the collection carries is answered with 404 by both handlers, and the
    like handler leaves the world as it was. *)
Theorem unknown_id_is_404 w db resource_id oid :
  database w = module_loaded (Some db) →
  ObjectId resource_id = Some oid →
  List.find (has_id oid) (collection db "studyasset") = None →
  get_resource resource_id w
  = (Raises (HTTPException 404 "Resource not found"), w)
  ∧ like_resource resource_id w
    = (Raises (HTTPException 404 "Resource not found"), w).
Proof.
  intros Hdb Hoid Hnone. split.
  - unfold get_resource, try_except, mbind, M_bind, import_db, construct_oid.
    rewrite Hdb, Hoid. cbn. rewrite (find_one_by_id _ _ _ Hdb), Hnone. done.
  - unfold like_resource, try_except, mbind, M_bind, import_db, construct_oid.
    rewrite Hdb, Hoid. cbn.
    unfold update_one_inc, write_collection. rewrite Hdb.
    destruct (compile_by_id oid) as (t & -> & Ht). cbn.
    rewrite (update_first_ext _ _ _ _ Ht), (update_first_none _ _ _ Hnone).
    done.
Qed.

(** ** Likes *)

Lemma update_first_some t u (l : list Doc) d d' :
  List.find t l = Some d → u d = Returns d' →
  ∃ l', update_first t u l = Returns (1, l')
        ∧ (t d' = true → List.find t l' = Some d').
Proof.
  intros Hfind Hu. induction l as [|x l IH]; cbn in *; [done|].
  destruct (t x) eqn:Htx.
  - injection Hfind as ->. rewrite Hu. cbn. eexists. split; [done|].
    intros Ht. cbn. by rewrite Ht.
  - destruct (IH Hfind) as (l' & -> & Hl'). cbn. eexists. split; [done|].
    intros Ht. cbn. rewrite Htx. by apply Hl'.
Qed.

Lemma find_has_id oid (l : list Doc) d :
  List.find (has_id oid) l = Some d → d !! "_id" = Some (VOid oid).
Proof.
  intros H. apply List.find_some in H as [_ H].
  unfold has_id in H. by apply bool_decide_eq_true_1 in H.
Qed.

Lemma apply_inc_likes d :
  likes_numeric d = true →
  apply_inc "likes" 1 d = Returns (<["likes" := VInt (likes_of d + 1)]> d).
Proof.
  unfold likes_numeric, apply_inc, likes_of.
  destruct (d !! "likes") as [[]|]; done.
Qed.

Lemma collection_set_collection w db cname coll :
  database w = module_loaded (Some db) →
  ∃ db', database (set_collection cname coll w) = module_loaded (Some db')
         ∧ collection db' cname = coll.
Proof.
  intros Hdb. unfold set_collection. rewrite Hdb. eexists. split; [done|].
  unfold collection. cbn. by rewrite lookup_insert_eq.
Qed.

(** One call on a document that is there: the answer is the serialized
    document with the counter one higher, and that document is the one the
    collection holds afterwards. *)
Lemma like_resource_step w db resource_id oid d :
  database w = module_loaded (Some db) →
  ObjectId resource_id = Some oid →
  List.find (has_id oid) (collection db "studyasset") = Some d →
  likes_numeric d = true →
  let d' := <["likes" := VInt (likes_of d + 1)]> d in
  ∃ w' db',
    like_resource resource_id w = (Returns (serialize_doc (Some d')), w')
    ∧ database w' = module_loaded (Some db')
    ∧ List.find (has_id oid) (collection db' "studyasset") = Some d'.
Proof.
  intros Hdb Hoid Hfind Hnum d'.
  assert (Hid' : has_id oid d' = true).
  { unfold has_id, d'. apply bool_decide_eq_true_2.
    rewrite lookup_insert_ne; [|done]. by eapply find_has_id. }
  destruct (update_first_some (has_id oid) (apply_inc "likes" 1) _ d d'
              Hfind (apply_inc_likes _ Hnum)) as (l' & Hupd & Hl').
  destruct (collection_set_collection w db "studyasset" l' Hdb)
    as (db' & Hdb' & Hcoll').
  exists (set_collection "studyasset" l' w), db'.
  split; [|split; [done|by rewrite Hcoll'; apply Hl']].
  unfold like_resource, try_except, mbind, M_bind, import_db, construct_oid.
  rewrite Hdb, Hoid. cbn.
  unfold update_one_inc, write_collection. rewrite Hdb.
  destruct (compile_by_id oid) as (t & -> & Ht). cbn.
  rewrite (update_first_ext _ _ _ _ Ht), Hupd. cbn.
  rewrite (find_one_by_id _ _ _ Hdb'), Hcoll', (Hl' Hid'). done.
Qed.

(** A document as creation stores it has its counter at zero. *)
Lemma stored_doc_counter_zero payload new_id now :
  stored_doc payload new_id now !! "likes" = Some (VInt 0)
  ∧ likes_numeric (stored_doc payload new_id now) = true.
Proof.
  assert (H : stored_doc payload new_id now !! "likes" = Some (VInt 0)).
  { unfold stored_doc. rewrite !lookup_insert_ne by done.
    by rewrite lookup_insert_eq. }
  split; [done|]. unfold likes_numeric. by rewrite H.
Qed.

Lemma likes_of_insert d n : likes_of (<["likes" := VInt n]> d) = n.
Proof. unfold likes_of. by rewrite lookup_insert_eq. Qed.

Lemma likes_numeric_insert d n :
  likes_numeric (<["likes" := VInt n]> d) = true.
Proof. unfold likes_numeric. by rewrite lookup_insert_eq. Qed.

(** The collection after [n] calls: the document differs from the one
    before them in its counter only, which is [n] higher. *)
Lemma like_resource_iter w db resource_id oid d (n : nat) :
  database w = module_loaded (Some db) →
  ObjectId resource_id = Some oid →
  List.find (has_id oid) (collection db "studyasset") = Some d →
  likes_numeric d = true →
  ∃ db_n d_n,
    database (Nat.iter n (λ w, (like_resource resource_id w).2) w)
    = module_loaded (Some db_n)
    ∧ List.find (has_id oid) (collection db_n "studyasset") = Some d_n
    ∧ likes_numeric d_n = true
    ∧ likes_of d_n = likes_of d + Z.of_nat n
    ∧ ∀ x, <["likes" := x]> d_n = <["likes" := x]> d.
Proof.
  intros Hdb Hoid Hfind Hnum. induction n as [|n IH].
  - exists db, d. cbn. rewrite Z.add_0_r. done.
  - destruct IH as (db_n & d_n & Hdb_n & Hfind_n & Hnum_n & Hlikes & Hsame).
    destruct (like_resource_step _ _ _ _ _ Hdb_n Hoid Hfind_n Hnum_n)
      as (w' & db' & Hcall & Hdb' & Hfind').
    exists db', (<["likes" := VInt (likes_of d_n + 1)]> d_n).
    rewrite Nat.iter_succ. rewrite Hcall. cbn [snd].
    split; [done|]. split; [done|].
    split; [apply likes_numeric_insert|].
    split; [rewrite likes_of_insert; lia|].
    intros x. by rewrite insert_insert_eq.
Qed.

Lemma likes_of_serialize_doc (d out : Doc) :
  serialize_doc (Some d) = Some out → likes_of out = likes_of d.
Proof.
  destruct (d !! "_id") as [v|] eqn:Hid.
  - rewrite (serialize_doc_with_id _ v Hid). intros [= <-]. unfold likes_of.
    rewrite lookup_insert_ne; [|done]. by rewrite lookup_delete_ne.
  - rewrite (serialize_doc_without_id _ Hid). by intros [= <-].
Qed.

(** C1 (as amended): for an id that a document of the collection carries
    and whose counter is unset or an integer, and as long as the counter
    stays within the store's 64-bit integers, after [n] calls of the like
    handler the next call returns the serialized document with the counter
    at its first value plus [n + 1], and a fetch after the [n] calls shows
    the counter at its first value plus [n]. The handler being a function of
    the world, that is the only outcome for such a document. *)
Theorem like_resource_counts w db resource_id oid d (n : nat) :
  database w = module_loaded (Some db) →
  ObjectId resource_id = Some oid →
  List.find (has_id oid) (collection db "studyasset") = Some d →
  likes_numeric d = true →
  likes_of d + Z.of_nat n < 2 ^ 63 - 1 →
  let w_n := Nat.iter n (λ w, (like_resource resource_id w).2) w in
  (like_resource resource_id w_n).1
  = Returns (serialize_doc
               (Some (<["likes" := VInt (likes_of d + Z.of_nat n + 1)]> d)))
  ∧ ∃ out, (get_resource resource_id w_n).1 = Returns (Some out)
           ∧ likes_of out = likes_of d + Z.of_nat n.
Proof.
  intros Hdb Hoid Hfind Hnum _ w_n.
  destruct (like_resource_iter _ _ _ _ _ n Hdb Hoid Hfind Hnum)
    as (db_n & d_n & Hdb_n & Hfind_n & Hnum_n & Hlikes & Hsame).
  fold w_n in Hdb_n. split.
  - destruct (like_resource_step _ _ _ _ _ Hdb_n Hoid Hfind_n Hnum_n)
      as (w' & db' & -> & _ & _).
    cbn [fst]. by rewrite Hsame, Hlikes.
  - pose proof (find_has_id _ _ _ Hfind_n) as Hid.
    exists (<["id" := VStr (py_str (VOid oid))]> (delete "_id" d_n)).
    split.
    + unfold get_resource, try_except, mbind, M_bind, import_db, construct_oid.
      rewrite Hdb_n, Hoid. cbn -[serialize_doc falsy].
      rewrite (find_one_by_id _ _ _ Hdb_n), Hfind_n.
      assert (Hne : falsy (Some d_n) = false).
      { cbn. apply bool_decide_eq_false_2. intros ->.
        by rewrite lookup_empty in Hid. }
      rewrite Hne. cbn -[serialize_doc].
      by rewrite (serialize_doc_with_id _ _ Hid).
    + rewrite <- Hlikes. apply likes_of_serialize_doc.
      by apply serialize_doc_with_id.
Qed.

(** ** Creation *)

(** A closed decidable proposition, settled by evaluation. *)
Ltac by_evaluation :=
  match goal with
  | |- ?P => apply (bool_decide_unpack P); vm_compute; exact I
  end.

Lemma find_none_existsb (t : Doc → bool) (l : list Doc) :
  List.find t l = None → existsb t l = false.
Proof.
  induction l as [|d l IH]; cbn; [done|]. destruct (t d); [done|]. exact IH.
Qed.

Lemma find_app_new (t : Doc → bool) (l : list Doc) d :
  List.find t l = None → t d = true → List.find t (l ++ [d]) = Some d.
Proof.
  intros Hnone Ht. induction l as [|x l IH]; cbn in *; [by rewrite Ht|].
  destruct (t x); [done|]. by apply IH.
Qed.

(** The dump has the ten fields of the model and no other key. *)
Lemma model_dump_keys payload k :
  is_Some (model_dump payload !! k) →
  k ∈ ["title"; "description"; "subject"; "class_"; "exam"; "year";
       "file_url"; "thumbnail_url"; "type"; "uploader_id"].
Proof.
  unfold model_dump. intros H.
  repeat (rewrite lookup_insert in H;
          destruct (decide _) as [<-|_] in H; [by_evaluation|]).
  rewrite lookup_empty in H. by destruct H.
Qed.

Lemma model_dump_lacks payload k :
  k ∉ ["title"; "description"; "subject"; "class_"; "exam"; "year";
       "file_url"; "thumbnail_url"; "type"; "uploader_id"] →
  model_dump payload !! k = None.
Proof.
  intros Hk. apply eq_None_not_Some. intros H. by apply model_dump_keys in H.
Qed.

(** The creation handler, in every world. *)
Lemma create_resource_cases payload new_id now w :
  create_resource payload new_id now w
  = match database w with
    | import_raises e | handle_offline _ e =>
        (Raises (HTTPException 500 (exn_str e)), w)
    | module_loaded None =>
        (Raises (HTTPException 500 "Database not available"), w)
    | module_loaded (Some db) =>
        if existsb (has_id new_id) (collection db "studyasset")
        then (Raises (HTTPException 500 "E11000 duplicate key error"), w)
        else (Returns new_id,
              set_collection "studyasset"
                (collection db "studyasset" ++ [stored_doc payload new_id now])
                w)
    end.
Proof.
  unfold create_resource, create_document.
  rewrite (model_dump_lacks payload "likes") by by_evaluation.
  cbv zeta iota. rewrite lookup_insert_ne by done.
  rewrite (model_dump_lacks payload "created_at") by by_evaluation.
  cbv zeta iota.
  unfold try_except, mbind, M_bind, import_db, insert_one, write_collection.
  rewrite !lookup_insert_ne by done.
  rewrite (model_dump_lacks payload "_id") by by_evaluation.
  destruct (database w) as [e|[db|]|db e] eqn:Hdb; cbn -[model_dump];
    rewrite ?Hdb; try done.
  change (λ d : Doc, bool_decide (d !! "_id" = Some (VOid new_id)))
    with (has_id new_id).
  by destruct (existsb (has_id new_id) (collection db "studyasset")).
Qed.

Lemma create_resource_stores w db payload new_id now :
  database w = module_loaded (Some db) →
  List.find (has_id new_id) (collection db "studyasset") = None →
  create_resource payload new_id now w
  = (Returns new_id,
     set_collection "studyasset"
       (collection db "studyasset" ++ [stored_doc payload new_id now]) w).
Proof.
  intros Hdb Hfresh. rewrite create_resource_cases, Hdb.
  by rewrite (find_none_existsb _ _ Hfresh).
Qed.

(** Creation followed by a fetch of the returned id. *)
Lemma create_then_get w db payload new_id now :
  database w = module_loaded (Some db) →
  ObjectId new_id = Some new_id →
  List.find (has_id new_id) (collection db "studyasset") = None →
  ∃ w',
    create_resource payload new_id now w = (Returns new_id, w')
    ∧ get_resource new_id w'
      = (Returns (Some (fetched_doc payload new_id now)), w').
Proof.
  intros Hdb Hoid Hfresh.
  set (doc := stored_doc payload new_id now).
  set (coll' := (collection db "studyasset" ++ [doc])%list).
  destruct (collection_set_collection w db "studyasset" coll' Hdb)
    as (db' & Hdb' & Hcoll').
  assert (Hid : doc !! "_id" = Some (VOid new_id))
    by (unfold doc, stored_doc; by rewrite lookup_insert_eq).
  assert (Hfind : List.find (has_id new_id) coll' = Some doc).
  { apply find_app_new; [done|].
    unfold has_id. by rewrite Hid, bool_decide_eq_true. }
  exists (set_collection "studyasset" coll' w).
  split; [by apply create_resource_stores|].
  unfold get_resource, try_except, mbind, M_bind, import_db, construct_oid.
  rewrite Hdb', Hoid. cbn -[serialize_doc falsy].
  rewrite (find_one_by_id _ _ _ Hdb'), Hcoll', Hfind.
  assert (Hne : falsy (Some doc) = false).
  { cbn. apply bool_decide_eq_false_2. intros E.
    by rewrite E, lookup_empty in Hid. }
  rewrite Hne. cbn -[serialize_doc].
  by rewrite (serialize_doc_with_id _ _ Hid).
Qed.


Lemma fetched_doc_lacks payload new_id now k :
  k ∉ ["id"; "_id"; "created_at"; "likes";
       "title"; "description"; "subject"; "class_"; "exam"; "year";
       "file_url"; "thumbnail_url"; "type"; "uploader_id"] →
  fetched_doc payload new_id now !! k = None.
Proof.
  intros Hk. rewrite !not_elem_of_cons in Hk.
  destruct Hk as (? & ? & ? & ? & Hk). rewrite <- !not_elem_of_cons in Hk.
  unfold fetched_doc, stored_doc.
  rewrite lookup_insert_ne, lookup_delete_ne by done.
  rewrite !lookup_insert_ne by done. by apply model_dump_lacks.
Qed.


(** Validation never looks under the key ["class"]: a body with that key
    validates to what the body without it validates to, and no dump has
    the key. *)
Lemma class_key_is_ignored body v payload :
  CreateResource_validate (<["class" := v]> body)
  = CreateResource_validate (delete "class" body)
  ∧ model_dump payload !! "class" = None.
Proof.
  split; [|apply model_dump_lacks; by_evaluation].
  unfold CreateResource_validate, required_str, optional_str.
  by rewrite !lookup_insert_ne, !lookup_delete_ne.
Qed.

(** ** Listings *)

Lemma list_resources_eval w db q subject type limit :
  database w = module_loaded (Some db) →
  list_resources q subject type limit w
  = match query_test (filter_query q subject type) with
    | Some t =>
        (Returns (map (λ doc, serialize_doc (Some doc))
                    (cursor_limit limit (cursor_sort "created_at" (-1)
                       (List.filter t (collection db "studyasset"))))), w)
    | None =>
        (Raises (HTTPException 500 "OperationFailure: the query is not valid"), w)
    end.
Proof.
  intros Hdb.
  unfold list_resources, try_except, mbind, M_bind, import_db.
  rewrite Hdb. cbn -[serialize_doc filter_query query_test].
  unfold find_sort_limit, read_collection, compile. rewrite Hdb.
  by destruct (query_test (filter_query q subject type)).
Qed.

Lemma list_resources_inv w w' q subject type limit items :
  list_resources q subject type limit w = (Returns items, w') →
  ∃ db t,
    database w = module_loaded (Some db)
    ∧ query_test (filter_query q subject type) = Some t
    ∧ w' = w
    ∧ items = map (λ doc, serialize_doc (Some doc))
                (cursor_limit limit (cursor_sort "created_at" (-1)
                   (List.filter t (collection db "studyasset")))).
Proof.
  destruct (database w) as [e|[db|]|db e] eqn:Hdb.
  - unfold list_resources, try_except, mbind, M_bind, import_db.
    rewrite Hdb. by destruct e.
  - rewrite (list_resources_eval _ _ _ _ _ _ Hdb).
    destruct (query_test (filter_query q subject type)) as [t|]; [|done].
    intros [= <- <-]. by exists db, t.
  - unfold list_resources, try_except, mbind, M_bind, import_db.
    by rewrite Hdb.
  - by rewrite (list_resources_offline _ _ _ _ _ _ _ Hdb).
Qed.

Lemma eq_test_text (f : option value) s :
  bool_decide (default VNull f = VStr s) = bool_decide (f = Some (VStr s)).
Proof. apply bool_decide_ext. destruct f; cbn; split; congruence. Qed.

Lemma truthy_Some q : q ≠ "" → truthy (Some q) = true.
Proof. intros Hq. cbn. by rewrite bool_decide_eq_false_2. Qed.

(** The test of the exact-match part of a filter. *)
Lemma query_test_exact subject type :
  ∃ t, query_test (filter_query None subject type) = Some t
       ∧ ∀ d, t d = field_is "subject" subject d && field_is "type" type d.
Proof.
  unfold filter_query, field_is. cbn.
  destruct subject as [s|], type as [ty|]; cbn;
    repeat case_bool_decide; cbn;
    (eexists; split; [reflexivity|]); intros d; cbn;
    rewrite ?eq_test_text, ?andb_true_r;
    repeat case_bool_decide; done.
Qed.

(** The test of a filter with a pattern the store accepts: one of the five
    fields matches it, and the exact-match part holds. *)
Lemma query_test_pattern q subject type m :
  q ≠ "" → regex_i q = Some m →
  ∃ t, query_test (filter_query (Some q) subject type) = Some t
       ∧ ∀ d, t d = any_field_matches m d
                    && (field_is "subject" subject d && field_is "type" type d).
Proof.
  intros Hq Hm. unfold filter_query, field_is. rewrite (truthy_Some _ Hq).
  cbn. rewrite Hm. cbn.
  destruct subject as [s|], type as [ty|]; cbn;
    repeat case_bool_decide; cbn;
    (eexists; split; [reflexivity|]); intros d; cbn;
    rewrite ?eq_test_text, ?andb_true_r, ?orb_false_r;
    unfold any_field_matches; cbn; rewrite ?orb_false_r;
    repeat case_bool_decide; done.
Qed.

Lemma query_test_rejected q subject type :
  q ≠ "" → regex_i q = None →
  query_test (filter_query (Some q) subject type) = None.
Proof.
  intros Hq Hm. unfold filter_query. rewrite (truthy_Some _ Hq).
  cbn. by rewrite Hm.
Qed.

Lemma filter_ext_eq (t t' : Doc → bool) (l : list Doc) :
  (∀ d, t d = t' d) → List.filter t l = List.filter t' l.
Proof. intros E. induction l as [|d l IH]; cbn; [done|]. by rewrite E, IH. Qed.

Lemma cursor_limit_subset n (l : list Doc) d :
  d ∈ cursor_limit n l → d ∈ l.
Proof.
  unfold cursor_limit. destruct (n =? 0); [done|]. apply subseteq_take.
Qed.

Lemma cursor_limit_all n (l : list Doc) :
  n = 0 ∨ (length l ≤ Z.abs_nat n)%nat → cursor_limit n l = l.
Proof.
  unfold cursor_limit. intros [->|Hlen]; [done|].
  destruct (n =? 0); [done|]. by apply take_ge.
Qed.

Lemma StronglySorted_weaken {A} (R R' : A → A → Prop) (l : list A) :
  (∀ a b, R a b → R' a b) → StronglySorted R l → StronglySorted R' l.
Proof.
  intros HR. induction 1 as [|x l Hs IH Hall]; constructor; [done|].
  eapply Forall_impl; [exact Hall|]. auto.
Qed.

Lemma any_field_matches_ext (m m' : string → bool) (d : Doc) :
  (∀ s, m s = m' s) → any_field_matches m d = any_field_matches m' d.
Proof.
  intros E. unfold any_field_matches.
  induction searched_fields as [|key keys IH]; cbn; [done|].
  rewrite IH. by destruct (d !! key) as [[]|]; rewrite ?E.
Qed.

(** C5 (as amended): with the store configured, a non-empty [q] is a
    pattern handed to the store's case-insensitive regular-expression
    search. When the store accepts it, the listing is made of the documents
    in which one of title, description, subject, exam, year is text the
    pattern matches (and which pass the exact-match parameters), newest
    first and cut at the limit: every item is such a document, and all of
    them are there when the limit does not cut; for a pattern the store
    reads letter for letter, these are the documents one of whose five
    fields contains [q], letter case apart. When the store rejects the
    pattern the answer is 500. *)
Theorem list_resources_q_is_a_pattern w db q subject type limit :
  database w = module_loaded (Some db) →
  q ≠ "" →
  match regex_i q with
  | Some m =>
      let wanted := λ d, any_field_matches m d
                         && (field_is "subject" subject d
                             && field_is "type" type d) in
      let found := List.filter wanted (collection db "studyasset") in
      ∃ items,
        list_resources (Some q) subject type limit w = (Returns items, w)
        ∧ items = map (λ d, serialize_doc (Some d))
                    (cursor_limit limit (cursor_sort "created_at" (-1) found))
        ∧ (∀ item, item ∈ items →
             ∃ d, d ∈ collection db "studyasset" ∧ wanted d = true
                  ∧ item = serialize_doc (Some d))
        ∧ (limit = 0 ∨ (length found ≤ Z.abs_nat limit)%nat →
           ∀ d, d ∈ collection db "studyasset" → wanted d = true →
                serialize_doc (Some d) ∈ items)
        ∧ ((∀ s, m s = contains_ci q s) →
           ∀ d, wanted d = any_field_matches (contains_ci q) d
                           && (field_is "subject" subject d
                               && field_is "type" type d))
  | None =>
      list_resources (Some q) subject type limit w
      = (Raises (HTTPException 500 "OperationFailure: the query is not valid"), w)
  end.
Proof.
  intros Hdb Hq. rewrite (list_resources_eval _ _ _ _ _ _ Hdb).
  destruct (regex_i q) as [m|] eqn:Hm.
  - destruct (query_test_pattern q subject type m Hq Hm) as (t & -> & Ht).
    intros wanted found. rewrite (filter_ext_eq t wanted _ Ht). fold found.
    eexists. split; [reflexivity|]. split; [reflexivity|]. split.
    + intros item Hitem. apply list_elem_of_In, in_map_iff in Hitem
        as (d & <- & Hd).
      apply list_elem_of_In, cursor_limit_subset in Hd.
      rewrite cursor_sort_perm in Hd.
      apply list_elem_of_In, filter_In in Hd as [Hd Hw].
      exists d. by rewrite list_elem_of_In.
    + split.
      * intros Hall d Hd Hw. rewrite (cursor_limit_all _ _) by
          (by rewrite (Permutation_length (cursor_sort_perm _ _ _))).
        apply list_elem_of_In.
        apply (in_map (λ d, serialize_doc (Some d))), list_elem_of_In.
        rewrite cursor_sort_perm. apply list_elem_of_In, filter_In.
        by rewrite <- list_elem_of_In.
      * intros Hlit d. unfold wanted.
        by rewrite (any_field_matches_ext m (contains_ci q) d Hlit).
  - by rewrite (query_test_rejected _ _ _ Hq Hm).
Qed.

(** C6 (as amended): whenever the listing route returns items they are in
    descending order of ["created_at"], an unset value sorting below every
    other, and for a positive limit (24 when the request has none) there
    are at most that many; with the store configured and [q] empty or a
    pattern the store accepts, the route does return. *)
Theorem get_resources_sorted_bounded w q subject type limit :
  (∀ items w',
     get_resources q subject type limit w = (Returns items, w') →
     StronglySorted newest_first items
     ∧ (0 < default 24 limit → Z.of_nat (length items) ≤ default 24 limit))
  ∧ (∀ db, database w = module_loaded (Some db) →
       (truthy q = true → is_Some (regex_i (default "" q))) →
       ∃ items, get_resources q subject type limit w = (Returns items, w))
  ∧ (∀ v, bson_leb None v = true).
Proof.
  split; [|split; [|apply bson_leb_unset]].
  - intros items w' Hret. unfold get_resources in Hret.
    apply list_resources_inv in Hret as (db & t & _ & _ & _ & ->). split.
    + apply StronglySorted_map_items.
      eapply StronglySorted_weaken;
        [|apply cursor_limit_sorted, (cursor_sort_sorted "created_at" (-1))].
      intros a b Hab. unfold newest_first.
      by rewrite !created_at_of_serialize_doc.
    + intros Hpos. rewrite length_map. by apply cursor_limit_length.
  - intros db Hdb Hq. unfold get_resources.
    rewrite (list_resources_eval _ _ _ _ _ _ Hdb).
    destruct q as [q|]; [destruct (decide (q = "")) as [->|Hne]|].
    + destruct (query_test_exact subject type) as (t & Ht & _).
      change (filter_query (Some "") subject type)
        with (filter_query None subject type). rewrite Ht. by eexists.
    + destruct (Hq (truthy_Some _ Hne)) as [m Hm].
      destruct (query_test_pattern q subject type m Hne Hm) as (t & -> & _).
      by eexists.
    + destruct (query_test_exact subject type) as (t & -> & _). by eexists.
Qed.

(** ** Counters stay numeric

    The hypothesis of [like_resource_counts] on the counter holds in every
    world that requests lead to from a world where it holds, the empty
    collection for one. *)

Lemma update_first_keeps_counters t (l l' : list Doc) n :
  update_first t (apply_inc "likes" 1) l = Returns (n, l') →
  Forall (λ d, likes_numeric d = true) l →
  Forall (λ d, likes_numeric d = true) l'.
Proof.
  revert l' n. induction l as [|d l IH]; cbn; intros l' n Hupd Hall.
  - by injection Hupd as <- <-.
  - apply Forall_cons in Hall as [Hd Hl]. destruct (t d).
    + rewrite (apply_inc_likes _ Hd) in Hupd. cbn in Hupd.
      injection Hupd as <- <-. constructor; [apply likes_numeric_insert|done].
    + destruct (update_first t (apply_inc "likes" 1) l) as [[m l0]|e]; [|done].
      cbn in Hupd. injection Hupd as <- <-. constructor; [done|by eapply IH].
Qed.

Lemma counters_numeric_set_collection w db coll :
  database w = module_loaded (Some db) →
  Forall (λ d, likes_numeric d = true) coll →
  counters_numeric (set_collection "studyasset" coll w).
Proof.
  intros Hdb Hall.
  destruct (collection_set_collection w db "studyasset" coll Hdb)
    as (db' & Hdb' & Hcoll').
  unfold counters_numeric. by rewrite Hdb', Hcoll'.
Qed.

Lemma get_resource_world resource_id w : (get_resource resource_id w).2 = w.
Proof.
  destruct (database w) as [e|[db|]|db e] eqn:Hdb;
    [| | |by rewrite (get_resource_offline _ _ _ _ Hdb)];
    unfold get_resource, try_except, mbind, M_bind, import_db, construct_oid;
    rewrite Hdb; [by destruct e| |done].
  destruct (ObjectId resource_id) as [oid|]; [|done]. cbn -[serialize_doc falsy].
  rewrite (find_one_by_id _ _ _ Hdb).
  by destruct (falsy (List.find (has_id oid) (collection db "studyasset"))).
Qed.

Lemma list_resources_world q subject type limit w :
  (list_resources q subject type limit w).2 = w.
Proof.
  destruct (database w) as [e|[db|]|db e] eqn:Hdb.
  - unfold list_resources, try_except, mbind, M_bind, import_db.
    rewrite Hdb. by destruct e.
  - rewrite (list_resources_eval _ _ _ _ _ _ Hdb).
    by destruct (query_test (filter_query q subject type)).
  - unfold list_resources, try_except, mbind, M_bind, import_db.
    by rewrite Hdb.
  - by rewrite (list_resources_offline _ _ _ _ _ _ _ Hdb).
Qed.

Lemma like_resource_keeps_counters resource_id w :
  counters_numeric w → counters_numeric (like_resource resource_id w).2.
Proof.
  intros Hw.
  destruct (database w) as [e|[db|]|db e] eqn:Hdb;
    [| | |by rewrite (like_resource_offline _ _ _ _ Hdb)];
    unfold like_resource, try_except, mbind, M_bind, import_db, construct_oid;
    rewrite Hdb; [by destruct e| |done].
  destruct (ObjectId resource_id) as [oid|]; [|done]. cbn -[serialize_doc].
  unfold update_one_inc, write_collection. rewrite Hdb.
  destruct (compile_by_id oid) as (t & -> & Ht). cbn -[serialize_doc].
  destruct (update_first t (apply_inc "likes" 1) (collection db "studyasset"))
    as [[n l']|e] eqn:Hupd; cbn -[serialize_doc]; [|by destruct e].
  destruct (n =? 0) eqn:Hn; cbn -[serialize_doc]; rewrite Hn;
    cbn -[serialize_doc]; [done|].
  destruct (collection_set_collection w db "studyasset" l' Hdb)
    as (db' & Hdb' & Hcoll').
  rewrite (find_one_by_id _ _ _ Hdb'). cbn -[serialize_doc].
  apply (counters_numeric_set_collection _ _ _ Hdb).
  apply (update_first_keeps_counters _ _ _ _ Hupd).
  unfold counters_numeric in Hw. by rewrite Hdb in Hw.
Qed.

Lemma create_resource_keeps_counters payload new_id now w :
  counters_numeric w → counters_numeric (create_resource payload new_id now w).2.
Proof.
  intros Hw. rewrite create_resource_cases.
  destruct (database w) as [e|[db|]|db e] eqn:Hdb; try done.
  destruct (existsb _ _); cbn [snd]; [done|].
  apply (counters_numeric_set_collection _ _ _ Hdb).
  unfold counters_numeric in Hw. rewrite Hdb in Hw.
  apply Forall_app. split; [done|]. constructor; [|done].
  apply (stored_doc_counter_zero payload new_id now).
Qed.

Lemma test_database_world w : (test_database w).2 = w.
Proof.
  destruct w as [env [e|[db|]|db e]]; [by destruct e| |done|done].
  by destruct db as [n [names|e] colls].
Qed.

Lemma serve_keeps_counters w r :
  counters_numeric w → counters_numeric (serve w r).
Proof.
  intros Hw. destruct r; cbn [serve].
  - unfold get_resources. by rewrite list_resources_world.
  - unfold post_resources. destruct (CreateResource_validate body); [|done].
    by apply create_resource_keeps_counters.
  - by rewrite get_resource_world.
  - by apply like_resource_keeps_counters.
  - by rewrite test_database_world.
Qed.

(** From a world whose counters are numeric, any sequence of requests leads
    to one whose counters are. *)
Lemma served_counters_numeric w (rs : list request) :
  counters_numeric w → counters_numeric (foldl serve w rs).
Proof.
  revert w. induction rs as [|r rs IH]; intros w Hw; cbn; [done|].
  by apply IH, serve_keeps_counters.
Qed.

(** ** Fetching and liking, case by case *)

Lemma get_resource_found w db resource_id oid d :
  database w = module_loaded (Some db) →
  ObjectId resource_id = Some oid →
  List.find (has_id oid) (collection db "studyasset") = Some d →
  get_resource resource_id w = (Returns (serialize_doc (Some d)), w).
Proof.
  intros Hdb Hoid Hfind. pose proof (find_has_id _ _ _ Hfind) as Hid.
  unfold get_resource, try_except, mbind, M_bind, import_db, construct_oid.
  rewrite Hdb, Hoid. cbn -[serialize_doc falsy].
  rewrite (find_one_by_id _ _ _ Hdb), Hfind.
  assert (Hne : falsy (Some d) = false).
  { cbn. apply bool_decide_eq_false_2. intros ->.
    by rewrite lookup_empty in Hid. }
  by rewrite Hne.
Qed.

Lemma update_first_found t u (l : list Doc) d d' :
  List.find t l = Some d → u d = Returns d' →
  ∃ l', update_first t u l = Returns (1, l')
        ∧ length l' = length l
        ∧ (t d' = true → List.find t l' = Some d')
        ∧ ∀ t' : Doc → bool, t' d = false → t' d' = false →
            List.find t' l' = List.find t' l.
Proof.
  intros Hfind Hu. induction l as [|x l IH]; cbn in *; [done|].
  destruct (t x) eqn:Htx.
  - injection Hfind as ->. rewrite Hu. cbn. eexists. split; [done|].
    split; [done|]. split.
    + intros Ht. cbn. by rewrite Ht.
    + intros t' H1 H2. cbn. by rewrite H1, H2.
  - destruct (IH Hfind) as (l' & -> & Hlen & Hl' & Hother). cbn.
    eexists. split; [done|]. split; [cbn; by rewrite Hlen|]. split.
    + intros Ht. cbn. rewrite Htx. by apply Hl'.
    + intros t' H1 H2. cbn. by rewrite (Hother t' H1 H2).
Qed.

Lemma update_first_refused t u (l : list Doc) d e :
  List.find t l = Some d → u d = Raises e → update_first t u l = Raises e.
Proof.
  intros Hfind Hu. induction l as [|x l IH]; cbn in *; [done|].
  destruct (t x).
  - injection Hfind as ->. by rewrite Hu.
  - by rewrite (IH Hfind).
Qed.

Lemma apply_inc_refused d :
  likes_numeric d = false →
  apply_inc "likes" 1 d
  = Raises (Exception "Cannot apply $inc to a value of non-numeric type").
Proof.
  unfold likes_numeric, apply_inc. by destruct (d !! "likes") as [[]|].
Qed.

Lemma has_id_other oid oid' (d : Doc) :
  oid' ≠ oid → d !! "_id" = Some (VOid oid) → has_id oid' d = false.
Proof.
  intros Hne Hid. unfold has_id. apply bool_decide_eq_false_2.
  rewrite Hid. congruence.
Qed.

(** The like handler on a document that is there and whose counter the
    store can increment, with the collection it leaves. *)
Lemma like_resource_found w db resource_id oid d :
  database w = module_loaded (Some db) →
  ObjectId resource_id = Some oid →
  List.find (has_id oid) (collection db "studyasset") = Some d →
  likes_numeric d = true →
  let d' := <["likes" := VInt (likes_of d + 1)]> d in
  ∃ l',
    like_resource resource_id w
    = (Returns (serialize_doc (Some d')), set_collection "studyasset" l' w)
    ∧ length l' = length (collection db "studyasset")
    ∧ List.find (has_id oid) l' = Some d'
    ∧ ∀ oid', oid' ≠ oid →
        List.find (has_id oid') l'
        = List.find (has_id oid') (collection db "studyasset").
Proof.
  intros Hdb Hoid Hfind Hnum d'.
  pose proof (find_has_id _ _ _ Hfind) as Hid.
  assert (Hid' : d' !! "_id" = Some (VOid oid)).
  { unfold d'. by rewrite lookup_insert_ne. }
  assert (Hhas : has_id oid d' = true).
  { unfold has_id. by rewrite Hid', bool_decide_eq_true. }
  destruct (update_first_found (has_id oid) (apply_inc "likes" 1) _ d d'
              Hfind (apply_inc_likes _ Hnum))
    as (l' & Hupd & Hlen & Hl' & Hother).
  destruct (collection_set_collection w db "studyasset" l' Hdb)
    as (db' & Hdb' & Hcoll').
  exists l'. split; [|split; [done|split; [by apply Hl'|]]].
  - unfold like_resource, try_except, mbind, M_bind, import_db, construct_oid.
    rewrite Hdb, Hoid. cbn -[serialize_doc].
    unfold update_one_inc, write_collection. rewrite Hdb.
    destruct (compile_by_id oid) as (t & -> & Ht). cbn -[serialize_doc].
    rewrite (update_first_ext _ _ _ _ Ht), Hupd. cbn -[serialize_doc].
    by rewrite (find_one_by_id _ _ _ Hdb'), Hcoll', (Hl' Hhas).
  - intros oid' Hne. apply Hother; by eapply has_id_other.
Qed.

Lemma like_resource_refusal w db resource_id oid d :
  database w = module_loaded (Some db) →
  ObjectId resource_id = Some oid →
  List.find (has_id oid) (collection db "studyasset") = Some d →
  likes_numeric d = false →
  like_resource resource_id w
  = (Raises (HTTPException 500
               "Cannot apply $inc to a value of non-numeric type"), w).
Proof.
  intros Hdb Hoid Hfind Hnum.
  unfold like_resource, try_except, mbind, M_bind, import_db, construct_oid.
  rewrite Hdb, Hoid. cbn -[serialize_doc].
  unfold update_one_inc, write_collection. rewrite Hdb.
  destruct (compile_by_id oid) as (t & -> & Ht). cbn -[serialize_doc].
  by rewrite (update_first_ext _ _ _ _ Ht),
    (update_first_refused _ _ _ _ _ Hfind (apply_inc_refused _ Hnum)).
Qed.


(** X1: a fetch of an id that a document carries returns that document
    serialized, public id in place of the internal one, and changes
    nothing. *)
Theorem get_resource_returns_stored w db resource_id oid d :
  database w = module_loaded (Some db) →
  ObjectId resource_id = Some oid →
  List.find (has_id oid) (collection db "studyasset") = Some d →
  ∃ out,
    get_resource resource_id w = (Returns (Some out), w)
    ∧ out !! "id" = Some (VStr oid)
    ∧ out !! "_id" = None
    ∧ ∀ k, k ≠ "_id" → k ≠ "id" → out !! k = d !! k.
Proof.
  intros Hdb Hoid Hfind. pose proof (find_has_id _ _ _ Hfind) as Hid.
  exists (<["id" := VStr (py_str (VOid oid))]> (delete "_id" d)).
  split.
  { rewrite (get_resource_found _ _ _ _ _ Hdb Hoid Hfind).
    by rewrite (serialize_doc_with_id _ _ Hid). }
  split; [by rewrite lookup_insert_eq|]. split.
  - rewrite lookup_insert_ne by done. by rewrite lookup_delete_eq.
  - intros k Hk1 Hk2. rewrite lookup_insert_ne by done.
    by rewrite lookup_delete_ne.
Qed.



(** X4: a like touches one counter and nothing else: the collection keeps
    its length, the liked document differs from what it was in ["likes"]
    only, every document under another identifier is found as before, and
    the environment is the same. *)
Theorem like_resource_frame w db resource_id oid d :
  database w = module_loaded (Some db) →
  ObjectId resource_id = Some oid →
  List.find (has_id oid) (collection db "studyasset") = Some d →
  likes_numeric d = true →
  let w' := (like_resource resource_id w).2 in
  environ w' = environ w
  ∧ length (documents w') = length (documents w)
  ∧ (∃ d', List.find (has_id oid) (documents w') = Some d'
           ∧ likes_of d' = likes_of d + 1
           ∧ ∀ k, k ≠ "likes" → d' !! k = d !! k)
  ∧ ∀ oid', oid' ≠ oid →
      List.find (has_id oid') (documents w')
      = List.find (has_id oid') (documents w).
Proof.
  intros Hdb Hoid Hfind Hnum w'.
  destruct (like_resource_found _ _ _ _ _ Hdb Hoid Hfind Hnum)
    as (l' & Hcall & Hlen & Hl' & Hother).
  destruct (collection_set_collection w db "studyasset" l' Hdb)
    as (db' & Hdb' & Hcoll').
  assert (Hdocs' : documents w' = l').
  { unfold w', documents. rewrite Hcall. cbn [snd]. by rewrite Hdb', Hcoll'. }
  assert (Hdocs : documents w = collection db "studyasset").
  { unfold documents. by rewrite Hdb. }
  rewrite Hdocs', Hdocs. split.
  { unfold w'. rewrite Hcall. cbn [snd]. unfold set_collection. by rewrite Hdb. }
  split; [done|]. split; [|done].
  eexists. split; [done|]. split; [apply likes_of_insert|].
  intros k Hk. by rewrite lookup_insert_ne.
Qed.

(** X5: a like of a document whose counter holds something that is not a
    number is answered with 500, and the world is left as it was. *)
Theorem like_resource_refused w db resource_id oid d :
  database w = module_loaded (Some db) →
  ObjectId resource_id = Some oid →
  List.find (has_id oid) (collection db "studyasset") = Some d →
  likes_numeric d = false →
  ∃ detail,
    like_resource resource_id w = (Raises (HTTPException 500 detail), w).
Proof.
  intros Hdb Hoid Hfind Hnum. eexists.
  by apply (like_resource_refusal _ _ _ _ _ Hdb Hoid Hfind Hnum).
Qed.

(** X6: what a like returns is what a fetch of the same id returns right
    after it. *)
Theorem like_then_get w db resource_id oid d :
  database w = module_loaded (Some db) →
  ObjectId resource_id = Some oid →
  List.find (has_id oid) (collection db "studyasset") = Some d →
  likes_numeric d = true →
  (get_resource resource_id (like_resource resource_id w).2).1
  = (like_resource resource_id w).1.
Proof.
  intros Hdb Hoid Hfind Hnum.
  destruct (like_resource_found _ _ _ _ _ Hdb Hoid Hfind Hnum)
    as (l' & Hcall & _ & Hl' & _).
  destruct (collection_set_collection w db "studyasset" l' Hdb)
    as (db' & Hdb' & Hcoll').
  rewrite Hcall. cbn [fst snd].
  rewrite <- Hcoll' in Hl'.
  by rewrite (get_resource_found _ _ _ _ _ Hdb' Hoid Hl').
Qed.

(** ** What no request does *)

Lemma kept_refl l : kept l l.
Proof. intros oid d Hd. exists d. split; [done|]. split; [lia|done]. Qed.

Lemma kept_trans l1 l2 l3 : kept l1 l2 → kept l2 l3 → kept l1 l3.
Proof.
  intros H12 H23 oid d Hd.
  destruct (H12 oid d Hd) as (d2 & Hd2 & Hle2 & Hk2).
  destruct (H23 oid d2 Hd2) as (d3 & Hd3 & Hle3 & Hk3).
  exists d3. split; [done|]. split; [lia|].
  intros k Hk. by rewrite Hk3, Hk2.
Qed.

Lemma apply_inc_keeps d d' :
  apply_inc "likes" 1 d = Returns d' →
  likes_of d ≤ likes_of d' ∧ ∀ k, k ≠ "likes" → d' !! k = d !! k.
Proof.
  unfold apply_inc, likes_of.
  destruct (d !! "likes") as [[]|] eqn:Hl; intros [= <-];
    rewrite lookup_insert_eq; (split; [lia|]);
    intros k Hk; by rewrite lookup_insert_ne.
Qed.

Lemma has_id_same_id oid (d d' : Doc) :
  d' !! "_id" = d !! "_id" → has_id oid d' = has_id oid d.
Proof. intros E. unfold has_id. by rewrite E. Qed.

Lemma update_first_kept t (l l' : list Doc) n :
  update_first t (apply_inc "likes" 1) l = Returns (n, l') → kept l l'.
Proof.
  revert l' n. induction l as [|x l IH]; cbn; intros l' n Hupd.
  - injection Hupd as <- <-. apply kept_refl.
  - destruct (t x).
    + destruct (apply_inc "likes" 1 x) as [x'|e] eqn:Hinc; [|done].
      cbn in Hupd. injection Hupd as <- <-.
      destruct (apply_inc_keeps _ _ Hinc) as [Hle Hk].
      intros oid d Hd. cbn in *.
      rewrite (has_id_same_id oid x x') by (by apply Hk).
      destruct (has_id oid x).
      * injection Hd as <-. by exists x'.
      * exists d. split; [done|]. split; [lia|done].
    + destruct (update_first t (apply_inc "likes" 1) l) as [[m l0]|e] eqn:Hrec;
        [|done].
      cbn in Hupd. injection Hupd as <- <-.
      intros oid d Hd. cbn in *. destruct (has_id oid x).
      * injection Hd as <-. exists x. split; [done|]. split; [lia|done].
      * by apply (IH _ _ eq_refl).
Qed.

Lemma kept_app l (x : Doc) : kept l (l ++ [x]).
Proof.
  intros oid d Hd. exists d. split; [|split; [lia|done]].
  induction l as [|y l IH]; cbn in *; [done|].
  destruct (has_id oid y); [done|]. by apply IH.
Qed.

Lemma documents_set_collection w db coll :
  database w = module_loaded (Some db) →
  documents (set_collection "studyasset" coll w) = coll.
Proof.
  intros Hdb.
  destruct (collection_set_collection w db "studyasset" coll Hdb)
    as (db' & Hdb' & Hcoll').
  unfold documents. by rewrite Hdb', Hcoll'.
Qed.

Lemma like_resource_kept resource_id w :
  kept (documents w) (documents (like_resource resource_id w).2).
Proof.
  destruct (database w) as [e|[db|]|db e] eqn:Hdb;
    [| | |rewrite (like_resource_offline _ _ _ _ Hdb); apply kept_refl];
    unfold like_resource, try_except, mbind, M_bind, import_db, construct_oid;
    rewrite Hdb; [destruct e; apply kept_refl| |apply kept_refl].
  destruct (ObjectId resource_id) as [oid|]; [|apply kept_refl].
  cbn -[serialize_doc].
  unfold update_one_inc, write_collection. rewrite Hdb.
  destruct (compile_by_id oid) as (t & -> & Ht). cbn -[serialize_doc].
  destruct (update_first t (apply_inc "likes" 1) (collection db "studyasset"))
    as [[n l']|e] eqn:Hupd; cbn -[serialize_doc];
    [|destruct e; apply kept_refl].
  destruct (n =? 0) eqn:Hn; cbn -[serialize_doc]; rewrite Hn;
    cbn -[serialize_doc]; [apply kept_refl|].
  destruct (collection_set_collection w db "studyasset" l' Hdb)
    as (db' & Hdb' & Hcoll').
  rewrite (find_one_by_id _ _ _ Hdb'). cbn -[serialize_doc].
  rewrite (documents_set_collection _ _ _ Hdb).
  unfold documents. rewrite Hdb. by eapply update_first_kept.
Qed.

Lemma create_resource_kept payload new_id now w :
  kept (documents w) (documents (create_resource payload new_id now w).2).
Proof.
  rewrite create_resource_cases.
  destruct (database w) as [e|[db|]|db e] eqn:Hdb; try apply kept_refl.
  destruct (existsb _ _); cbn [snd]; [apply kept_refl|].
  rewrite (documents_set_collection _ _ _ Hdb).
  unfold documents. rewrite Hdb. apply kept_app.
Qed.

(** X7: whatever the requests, no document is lost and no counter goes
    down: a document stored under an identifier before a sequence of
    requests is stored under it after them, with a counter at least as high
    and every other field as it was. *)
Theorem served_documents_kept w (rs : list request) :
  kept (documents w) (documents (foldl serve w rs)).
Proof.
  revert w. induction rs as [|r rs IH]; intros w; cbn; [apply kept_refl|].
  eapply kept_trans; [|apply IH]. destruct r; cbn [serve].
  - unfold get_resources. rewrite list_resources_world. apply kept_refl.
  - unfold post_resources. destruct (CreateResource_validate body);
      [apply create_resource_kept|apply kept_refl].
  - rewrite get_resource_world. apply kept_refl.
  - apply like_resource_kept.
  - rewrite test_database_world. apply kept_refl.
Qed.

(** X8: the three reading routes leave every world exactly as it was,
    whatever they answer. *)
Theorem reading_routes_change_nothing w :
  (∀ q subject type limit, (get_resources q subject type limit w).2 = w)
  ∧ (∀ resource_id, (get_resource resource_id w).2 = w)
  ∧ (test_database w).2 = w.
Proof.
  split; [|split].
  - intros. unfold get_resources. apply list_resources_world.
  - intros. apply get_resource_world.
  - apply test_database_world.
Qed.

(** ** Listings, case by case *)

(** X9: without [q], the exact-match parameters select on equality of
    text, both at once: every item is a stored document whose ["subject"] is
    the text asked for and whose ["type"] is the text asked for, and when
    the limit does not cut each such document is listed. *)
Theorem list_resources_exact_filters w db s t limit :
  database w = module_loaded (Some db) →
  s ≠ "" → t ≠ "" →
  let wanted := λ d : Doc,
    bool_decide (d !! "subject" = Some (VStr s))
    && bool_decide (d !! "type" = Some (VStr t)) in
  ∃ items,
    list_resources None (Some s) (Some t) limit w = (Returns items, w)
    ∧ (∀ item, item ∈ items →
         ∃ d, d ∈ collection db "studyasset"
              ∧ d !! "subject" = Some (VStr s) ∧ d !! "type" = Some (VStr t)
              ∧ item = serialize_doc (Some d))
    ∧ (limit = 0
       ∨ (length (List.filter wanted (collection db "studyasset"))
          ≤ Z.abs_nat limit)%nat →
       ∀ d, d ∈ collection db "studyasset" →
            d !! "subject" = Some (VStr s) → d !! "type" = Some (VStr t) →
            serialize_doc (Some d) ∈ items).
Proof.
  intros Hdb Hs Ht wanted. rewrite (list_resources_eval _ _ _ _ _ _ Hdb).
  destruct (query_test_exact (Some s) (Some t)) as (test & -> & Htest).
  assert (Hw : ∀ d, test d = wanted d).
  { intros d. rewrite Htest. unfold field_is, wanted.
    by rewrite (bool_decide_eq_false_2 (s = "")),
      (bool_decide_eq_false_2 (t = "")). }
  rewrite (filter_ext_eq test wanted _ Hw).
  eexists. split; [reflexivity|]. split.
  - intros item Hitem. apply list_elem_of_In, in_map_iff in Hitem
      as (d & <- & Hd).
    apply list_elem_of_In, cursor_limit_subset in Hd.
    rewrite cursor_sort_perm in Hd.
    apply list_elem_of_In, filter_In in Hd as [Hd Hwd].
    unfold wanted in Hwd. apply andb_prop in Hwd as [H1 H2].
    apply bool_decide_eq_true_1 in H1, H2.
    exists d. by rewrite list_elem_of_In.
  - intros Hall d Hd H1 H2. rewrite (cursor_limit_all _ _) by
      (by rewrite (Permutation_length (cursor_sort_perm _ _ _))).
    apply list_elem_of_In.
    apply (in_map (λ d, serialize_doc (Some d))), list_elem_of_In.
    rewrite cursor_sort_perm. apply list_elem_of_In, filter_In.
    split; [by rewrite <- list_elem_of_In|].
    unfold wanted. by rewrite !bool_decide_eq_true_2.
Qed.

Lemma filter_all (t : Doc → bool) (l : list Doc) :
  (∀ d, t d = true) → List.filter t l = l.
Proof. intros E. induction l as [|d l IH]; cbn; [done|]. by rewrite E, IH. Qed.

(** X10: a listing whose parameters are all absent or empty selects every
    document: the items are the serialized collection, newest first, cut
    at the limit, and a rearrangement of the whole collection when the
    limit is 0 or not below its size. *)
Theorem list_resources_no_criteria w db q subject type limit :
  database w = module_loaded (Some db) →
  truthy q = false → truthy subject = false → truthy type = false →
  list_resources q subject type limit w
  = (Returns (map (λ d, serialize_doc (Some d))
                (cursor_limit limit
                   (cursor_sort "created_at" (-1)
                      (collection db "studyasset")))), w)
  ∧ (limit = 0 ∨ (length (collection db "studyasset") ≤ Z.abs_nat limit)%nat →
     ∃ items, (list_resources q subject type limit w).1 = Returns items
              ∧ items ≡ₚ map (λ d, serialize_doc (Some d))
                           (collection db "studyasset")).
Proof.
  intros Hdb Hq Hs Ht.
  assert (Heval : list_resources q subject type limit w
    = (Returns (map (λ d, serialize_doc (Some d))
                  (cursor_limit limit
                     (cursor_sort "created_at" (-1)
                        (collection db "studyasset")))), w)).
  { rewrite (list_resources_eval _ _ _ _ _ _ Hdb).
    unfold filter_query. rewrite Hq, Hs, Ht. cbn -[serialize_doc].
    by rewrite filter_all. }
  split; [done|]. intros Hall. rewrite Heval. cbn [fst].
  eexists. split; [done|].
  rewrite cursor_limit_all
    by (by rewrite (Permutation_length (cursor_sort_perm _ _ _))).
  apply Permutation_map, cursor_sort_perm.
Qed.


(** X12: no listing shows an internal identifier: every item of every
    listing is a document without ["_id"]. *)
Theorem list_resources_hides_internal_id w w' q subject type limit items :
  list_resources q subject type limit w = (Returns items, w') →
  ∀ item, item ∈ items → ∃ out : Doc, item = Some out ∧ out !! "_id" = None.
Proof.
  intros Hret item Hitem.
  apply list_resources_inv in Hret as (db & t & _ & _ & _ & ->).
  apply list_elem_of_In, in_map_iff in Hitem as (d & <- & _).
  destruct (serialize_doc (Some d)) as [out|] eqn:Hout.
  - exists out. split; [done|]. by eapply serialize_doc_no_internal_id.
  - exfalso. unfold serialize_doc in Hout. case_bool_decide; [done|].
    by destruct (d !! "_id").
Qed.

(** ** Creation fails closed *)

(** X13: in every world a creation either returns an id or is answered
    with 500, and when it is answered with 500 the world is left as it
    was. *)
Theorem create_resource_fails_closed payload new_id now w :
  (∃ rid w', create_resource payload new_id now w = (Returns rid, w'))
  ∨ (∃ detail,
       create_resource payload new_id now w
       = (Raises (HTTPException 500 detail), w)).
Proof.
  rewrite create_resource_cases.
  destruct (database w) as [e|[db|]|db e] eqn:Hdb;
    try (right; by eexists).
  destruct (existsb _ _); [right; by eexists|left; by eexists _, _].
Qed.

(** X23: with the handle there and the store offline, a listing, a
    creation, and a fetch or a like of a well-formed id are each answered
    with a 500 that carries the text of the store's error, an id the
    constructor refuses is still answered with 400, and the world is left as
    it was. *)
Theorem offline_store_is_500 w db msg resource_id payload new_id now
    q subject type limit :
  database w = handle_offline db (Exception msg) →
  list_resources q subject type limit w = (Raises (HTTPException 500 msg), w)
  ∧ create_resource payload new_id now w = (Raises (HTTPException 500 msg), w)
  ∧ get_resource resource_id w
    = (Raises (if ObjectId resource_id is Some _ then HTTPException 500 msg
               else HTTPException 400 "Invalid id"), w)
  ∧ like_resource resource_id w
    = (Raises (if ObjectId resource_id is Some _ then HTTPException 500 msg
               else HTTPException 400 "Invalid id"), w).
Proof.
  intros Hdb. split; [by rewrite (list_resources_offline _ _ _ _ _ _ _ Hdb)|].
  split; [by rewrite create_resource_cases, Hdb|].
  split; [by rewrite (get_resource_offline _ _ _ _ Hdb)|].
  by rewrite (like_resource_offline _ _ _ _ Hdb).
Qed.

(** ** The key set of a serialized document *)

(** X14: serialization changes the key set in one way only: ["_id"], when
    there, gives way to ["id"]. *)
Theorem serialize_doc_keys (d out : Doc) :
  serialize_doc (Some d) = Some out →
  dom out = if d !! "_id" is Some _ then {["id"]} ∪ dom d ∖ {["_id"]}
            else dom d.
Proof.
  destruct (d !! "_id") as [v|] eqn:Hid.
  - rewrite (serialize_doc_with_id _ v Hid). intros [= <-].
    by rewrite dom_insert_L, dom_delete_L.
  - rewrite (serialize_doc_without_id _ Hid). by intros [= <-].
Qed.

(** ** The creation route *)

Lemma required_str_text body k :
  is_text (body !! k) = if required_str body k is Some _ then true else false.
Proof. unfold required_str. by destruct (body !! k) as [[]|]. Qed.

Lemma optional_str_text body k :
  is_text_or_null (body !! k)
  = if optional_str body k is Some _ then true else false.
Proof. unfold optional_str. by destruct (body !! k) as [[]|]. Qed.

Lemma validate_accepted body :
  body_accepted body
  = if CreateResource_validate body is Some _ then true else false.
Proof.
  unfold body_accepted, optional_names, forallb, CreateResource_validate.
  rewrite !required_str_text, !optional_str_text.
  destruct (required_str body "title"); [|done].
  destruct (required_str body "file_url"); cbn;
    repeat match goal with
           | |- context [optional_str body ?k] =>
               destruct (optional_str body k); cbn; try done
           end.
Qed.

(** X15: the creation route runs the handler on exactly the bodies that
    have text under ["title"] and ["file_url"] and text, [null] or nothing
    under each optional field; any other body is answered with 422 and
    leaves the world as it was. *)
Theorem post_resources_validates body new_id now w :
  (body_accepted body = true →
   ∃ payload, CreateResource_validate body = Some payload
              ∧ post_resources body new_id now w
                = create_resource payload new_id now w)
  ∧ (body_accepted body = false →
     post_resources body new_id now w
     = (Raises (HTTPException 422 "Unprocessable Entity"), w)).
Proof.
  rewrite validate_accepted. unfold post_resources.
  destruct (CreateResource_validate body) as [payload|]; split; try done.
  intros _. by exists payload.
Qed.

(** X16: a created resource is liked for the first time: with the store
    configured and a fresh identifier that reads back from its text, the
    like that follows the creation returns the document with
    ["likes"] at 1. *)
Theorem create_then_like w db payload new_id now :
  database w = module_loaded (Some db) →
  ObjectId new_id = Some new_id →
  List.find (has_id new_id) (collection db "studyasset") = None →
  ∃ out,
    (like_resource new_id (create_resource payload new_id now w).2).1
    = Returns (Some out)
    ∧ out !! "likes" = Some (VInt 1)
    ∧ out !! "id" = Some (VStr new_id)
    ∧ ∀ k v, model_dump payload !! k = Some v → out !! k = Some v.
Proof.
  intros Hdb Hoid Hfresh.
  rewrite (create_resource_stores _ _ _ _ _ Hdb Hfresh). cbn [snd].
  set (doc := stored_doc payload new_id now).
  set (coll' := (collection db "studyasset" ++ [doc])%list).
  destruct (collection_set_collection w db "studyasset" coll' Hdb)
    as (db' & Hdb' & Hcoll').
  assert (Hid : doc !! "_id" = Some (VOid new_id))
    by (unfold doc, stored_doc; by rewrite lookup_insert_eq).
  assert (Hfind : List.find (has_id new_id) (collection db' "studyasset")
                  = Some doc).
  { rewrite Hcoll'. apply find_app_new; [done|].
    unfold has_id. by rewrite Hid, bool_decide_eq_true. }
  destruct (stored_doc_counter_zero payload new_id now) as [Hzero Hnum].
  destruct (like_resource_found _ _ _ _ _ Hdb' Hoid Hfind Hnum)
    as (l' & -> & _). cbn [fst].
  assert (Hlikes : likes_of doc = 0).
  { unfold likes_of, doc. by rewrite Hzero. }
  rewrite Hlikes. change (0 + 1) with 1.
  assert (Hid' : (<["likes" := VInt 1]> doc) !! "_id" = Some (VOid new_id))
    by (by rewrite lookup_insert_ne).
  rewrite (serialize_doc_with_id _ _ Hid'). eexists. split; [done|].
  split; [|split].
  - rewrite lookup_insert_ne, lookup_delete_ne by done.
    by rewrite lookup_insert_eq.
  - by rewrite lookup_insert_eq.
  - intros k v Hk.
    assert (Hin := model_dump_keys payload k (ex_intro _ v Hk)).
    assert (k ≠ "id" ∧ k ≠ "_id" ∧ k ≠ "created_at" ∧ k ≠ "likes")
      as (? & ? & ? & ?).
    { repeat split; intros ->; revert Hin;
        change (?x ∈ ?l → False) with (x ∉ l); by_evaluation. }
    rewrite lookup_insert_ne, lookup_delete_ne by done.
    rewrite lookup_insert_ne by done.
    unfold doc, stored_doc. by rewrite !lookup_insert_ne.
Qed.

End api.

(** ** The request body, validated and dumped *)

(** X17: a key that names no field of the model is ignored: a body
    validates to the same payload, or fails the same way, with or without
    it. *)
Theorem validate_ignores_unknown_keys body k v :
  k ∉ field_names →
  CreateResource_validate (<[k := v]> body) = CreateResource_validate body.
Proof.
  intros Hk. unfold field_names in Hk. rewrite !not_elem_of_cons in Hk.
  destruct Hk as (? & ? & ? & ? & ? & ? & ? & ? & ? & ? & _).
  unfold CreateResource_validate, required_str, optional_str.
  by rewrite !lookup_insert_ne.
Qed.

(** X18: validation reads back what a payload spells out: the body that
    states every field of a payload, absent options as [null], validates
    to that payload. *)
Theorem validate_body_of payload :
  CreateResource_validate (body_of payload) = Some payload.
Proof.
  destruct payload as [t d s c e y f th ty u].
  unfold CreateResource_validate, required_str, optional_str, body_of.
  cbn [title description subject class_ exam year file_url thumbnail_url
       type uploader_id].
  repeat (rewrite lookup_insert_eq || rewrite lookup_insert_ne by done).
  by destruct d, s, c, e, y, th, ty, u.
Qed.

(** X19: a dump has the ten fields of the model, whatever the payload
    left out, and no other key: an option left out is dumped as [None],
    not dropped. *)
Theorem model_dump_has_every_field payload k :
  is_Some (model_dump payload !! k) ↔ k ∈ field_names.
Proof.
  split.
  - unfold model_dump, field_names. intros H.
    repeat (rewrite lookup_insert in H;
            destruct (decide _) as [<-|_] in H;
            [match goal with
             | |- ?P => apply (bool_decide_unpack P); vm_compute; exact I
             end|]).
    rewrite lookup_empty in H. by destruct H.
  - unfold field_names. rewrite !elem_of_cons, elem_of_nil.
    unfold model_dump.
    intros [->|[->|[->|[->|[->|[->|[->|[->|[->|[->|[]]]]]]]]]]];
      repeat (rewrite lookup_insert_eq || rewrite lookup_insert_ne by done);
      done.
Qed.

(** ** The diagnostics handler always answers *)

(** C8 (as amended): in every world (module missing or failing to load,
    handle absent, handle present, store reached or not, listing of the
    collections failing or not) the handler returns its dict, so the answer
    is 200 and the world is untouched; ["connection_status"] is
    ["Connected"] exactly when the handle is there and ["Not Connected"]
    otherwise; and with the handle there and the store not answering it
    stays ["Connected"], the failure being told in ["database"]. *)
Theorem test_database_always_answers (w : world) :
  ∃ response,
    test_database w = (Returns response, w)
    ∧ status_of (test_database w).1 = 200
    ∧ response !! "connection_status"
      = Some (RStr (if connected w then "Connected" else "Not Connected"))
    ∧ (connected w = true → store_answers w = false →
       ∃ e, response !! "database"
            = Some (RStr ("⚠️  Connected but Error: "
                          +:+ py_slice 50 (exn_str e)))).
Proof.
  destruct w as [env [e|[db|]|db e]].
  - destruct e; eexists; (split; [reflexivity|]); (split; [reflexivity|]);
      (split; [reflexivity|]); by intros [=].
  - destruct db as [n [names|e] colls];
      eexists; (split; [reflexivity|]); (split; [reflexivity|]);
      (split; [reflexivity|]); intros _ Hno; [by cbn in Hno|].
    by exists e.
  - eexists; (split; [reflexivity|]); (split; [reflexivity|]);
      (split; [reflexivity|]); by intros [=].
  - eexists; (split; [reflexivity|]); (split; [reflexivity|]);
      (split; [reflexivity|]). intros _ _. by exists e.
Qed.

(** ** The diagnostics report, field by field *)

(** X20: whatever the handle says, the two configuration fields of the
    report say only whether the environment variable is set and not empty,
    the name of the database never being shown, and the backend is
    reported running. *)
Theorem test_database_configuration_fields (w : world) :
  ∃ response,
    (test_database w).1 = Returns response
    ∧ response !! "database_url"
      = Some (RStr (if getenv_truthy w "DATABASE_URL"
                    then "✅ Set" else "❌ Not Set"))
    ∧ response !! "database_name"
      = Some (RStr (if getenv_truthy w "DATABASE_NAME"
                    then "✅ Set" else "❌ Not Set"))
    ∧ response !! "backend" = Some (RStr "✅ Running").
Proof.
  assert (Hset : ∀ key, set_or_not w key
    = RStr (if getenv_truthy w key then "✅ Set" else "❌ Not Set")).
  { intros key. unfold set_or_not. by destruct (getenv_truthy w key). }
  rewrite <- !Hset. clear Hset.
  destruct w as [env [e|[db|]|db e]].
  - destruct e; eexists; repeat split; reflexivity.
  - destruct db as [n [names|e] colls]; eexists; repeat split; reflexivity.
  - eexists; repeat split; reflexivity.
  - eexists; repeat split; reflexivity.
Qed.

(** X21: the ["database"] and ["collections"] fields of the report, in
    every world: module not found, another import failure with the first 50
    characters of its text, handle absent, store offline or listing refused
    with the first 50 characters of the refusal, or working with the first
    ten names of the listing; the list is empty in every case but the
    last. *)
Theorem test_database_report (w : world) :
  ∃ response,
    (test_database w).1 = Returns response
    ∧ (response !! "database", response !! "collections")
      = match database w with
        | import_raises (ImportError _) =>
            (Some (RStr "❌ Database module not found"), Some (RList []))
        | import_raises e =>
            (Some (RStr ("❌ Error: " +:+ py_slice 50 (exn_str e))),
             Some (RList []))
        | module_loaded None =>
            (Some (RStr "⚠️  Available but not initialized"), Some (RList []))
        | module_loaded (Some db) =>
            match list_collection_names db with
            | Returns names =>
                (Some (RStr "✅ Connected & Working"),
                 Some (RList (take 10 names)))
            | Raises e =>
                (Some (RStr ("⚠️  Connected but Error: "
                             +:+ py_slice 50 (exn_str e))),
                 Some (RList []))
            end
        | handle_offline _ e =>
            (Some (RStr ("⚠️  Connected but Error: "
                         +:+ py_slice 50 (exn_str e))),
             Some (RList []))
        end.
Proof.
  destruct w as [env [e|[db|]|db e]].
  - destruct e; eexists; split; reflexivity.
  - destruct db as [n [names|e] colls]; eexists; split; reflexivity.
  - eexists; split; reflexivity.
  - eexists; split; reflexivity.
Qed.

(** A slice has no more characters than asked for. *)
Lemma py_slice_characters n s : (characters (py_slice n s) ≤ n)%nat.
Proof.
  revert n. induction s as [|c s IH]; intros n; cbn; [lia|].
  destruct (is_continuation c) eqn:Hc; cbn; rewrite ?Hc.
  - apply IH.
  - destruct n as [|n]; cbn; [lia|]. rewrite Hc. specialize (IH n). lia.
Qed.

(** X22: the report never lists more than ten collections, and what it
    lists is the beginning of what the store listed. *)
Theorem test_database_bounds (w : world) :
  ∃ response names,
    (test_database w).1 = Returns response
    ∧ response !! "collections" = Some (RList names)
    ∧ (length names ≤ 10)%nat
    ∧ ∀ db listed, database w = module_loaded (Some db) →
        list_collection_names db = Returns listed →
        names `prefix_of` listed.
Proof.
  destruct w as [env [e|[db|]|db e]].
  - destruct e; eexists _, []; (split; [reflexivity|]);
      (split; [reflexivity|]); (split; [cbn; lia|]);
      by intros db listed [=].
  - destruct db as [n [names|e] colls].
    + eexists _, (take 10 names). split; [reflexivity|].
      split; [reflexivity|]. split; [rewrite length_take; lia|].
      intros db listed [= <-] [= <-]. apply prefix_take.
    + eexists _, []. split; [reflexivity|]. split; [reflexivity|].
      split; [cbn; lia|]. by intros db listed [= <-] [=].
  - eexists _, []. split; [reflexivity|]. split; [reflexivity|].
    split; [cbn; lia|]. by intros db listed [=].
  - eexists _, []. split; [reflexivity|]. split; [reflexivity|].
    split; [cbn; lia|]. by intros db' listed [=].
Qed.

(** ** Closed instances *)

(** C10, at a stored document and at one without ["_id"]. *)
Lemma serialize_doc_idempotent_witness :
  serialize_doc Reference.datetime_str
    (serialize_doc Reference.datetime_str (Some Examples.algebra))
  = serialize_doc Reference.datetime_str (Some Examples.algebra)
  ∧ serialize_doc Reference.datetime_str (Some Examples.draft)
    = Some Examples.draft.
Proof.
  destruct (serialize_doc_idempotent Reference.datetime_str
              (Some Examples.algebra)) as (Hidem & Hid & _).
  split; [exact Hidem|]. apply Hid. reflexivity.
Defined.

(** C9, at a stored document: ["title"] passes through. *)
Lemma serialize_doc_frame_witness :
  ∃ out, serialize_doc Reference.datetime_str (Some Examples.algebra) = Some out
         ∧ out !! "title" = Examples.algebra !! "title".
Proof.
  pose proof (serialize_doc_frame Reference.datetime_str Examples.algebra) as H.
  change (Examples.algebra !! "_id") with (Some (VOid Examples.oid1)) in H.
  destruct H as (out & Hout & _ & _ & Hframe).
  exists out. split; [exact Hout|]. apply Hframe; discriminate.
Defined.

(** C9, the claim as stated fails: a stored document that has both ["_id"]
    and ["id"] comes back from [GET /api/resources/{id}] with another value
    under ["id"]. *)
Lemma serialize_doc_replaces_stored_id :
  ∃ out,
    (get_resource Reference.ObjectId Reference.datetime_str Reference.regex_i
       Examples.oid1 (Examples.store_of [Examples.legacy])).1
    = Returns (Some out)
    ∧ Examples.legacy !! "id" = Some (VStr "x")
    ∧ out !! "id" = Some (VStr Examples.oid1)
    ∧ out !! "id" ≠ Examples.legacy !! "id".
Proof.
  exists (<["id" := VStr Examples.oid1]> (delete "_id" Examples.legacy)).
  split; [vm_compute; reflexivity|].
  split; [reflexivity|]. split; [reflexivity|]. discriminate.
Qed.

(** C3, at an id that is not 24 hexadecimal digits. *)
Lemma malformed_id_is_400_witness :
  get_resource Reference.ObjectId Reference.datetime_str Reference.regex_i
    "not-an-id" (Examples.store_of [Examples.algebra])
  = (Raises (HTTPException 400 "Invalid id"), Examples.store_of [Examples.algebra])
  ∧ like_resource Reference.ObjectId Reference.datetime_str Reference.regex_i
      "not-an-id" (Examples.store_of [Examples.algebra])
    = (Raises (HTTPException 400 "Invalid id"), Examples.store_of [Examples.algebra]).
Proof.
  exact (malformed_id_is_400 Reference.ObjectId Reference.datetime_str
           Reference.regex_i (Examples.store_of [Examples.algebra]) (Some _)
           "not-an-id" eq_refl eq_refl).
Defined.

(** C3, the claim as stated fails: with the store unconfigured the same
    malformed id is answered with 500 by both handlers. *)
Lemma malformed_id_unconfigured_is_500 :
  Reference.ObjectId "not-an-id" = None
  ∧ status_of (get_resource Reference.ObjectId Reference.datetime_str
                 Reference.regex_i "not-an-id" Examples.unconfigured).1 = 500
  ∧ status_of (like_resource Reference.ObjectId Reference.datetime_str
                 Reference.regex_i "not-an-id" Examples.unconfigured).1 = 500.
Proof. repeat split; vm_compute; reflexivity. Qed.

(** C4, at a well-formed id that the collection does not hold. *)
Lemma unknown_id_is_404_witness :
  get_resource Reference.ObjectId Reference.datetime_str Reference.regex_i
    Examples.oid2 (Examples.store_of [Examples.algebra])
  = (Raises (HTTPException 404 "Resource not found"),
     Examples.store_of [Examples.algebra])
  ∧ like_resource Reference.ObjectId Reference.datetime_str Reference.regex_i
      Examples.oid2 (Examples.store_of [Examples.algebra])
    = (Raises (HTTPException 404 "Resource not found"),
       Examples.store_of [Examples.algebra]).
Proof.
  eapply (unknown_id_is_404 Reference.ObjectId Reference.datetime_str
            Reference.regex_i); reflexivity.
Defined.

(** C1, at a stored document that was never liked, after two calls. *)
Lemma like_resource_counts_witness :
  (like_resource Reference.ObjectId Reference.datetime_str Reference.regex_i
     Examples.oid1
     (Nat.iter 2
        (λ w, (like_resource Reference.ObjectId Reference.datetime_str
                 Reference.regex_i Examples.oid1 w).2)
        (Examples.store_of [Examples.algebra]))).1
  = Returns (serialize_doc Reference.datetime_str
               (Some (<["likes" := VInt 3]> Examples.algebra)))
  ∧ ∃ out,
      (get_resource Reference.ObjectId Reference.datetime_str Reference.regex_i
         Examples.oid1
         (Nat.iter 2
            (λ w, (like_resource Reference.ObjectId Reference.datetime_str
                     Reference.regex_i Examples.oid1 w).2)
            (Examples.store_of [Examples.algebra]))).1
      = Returns (Some out)
      ∧ likes_of out = 2.
Proof.
  eapply (like_resource_counts Reference.ObjectId Reference.datetime_str
            Reference.regex_i (Examples.store_of [Examples.algebra]) _
            Examples.oid1 Examples.oid1 Examples.algebra 2); reflexivity.
Defined.


(** C7, evaluated: a body that supplies ["class"] is accepted, and the
    document fetched under the returned id has [None] under ["class_"], no
    ["class"] key, and the supplied value under no key. *)
Theorem class_key_never_stored :
  ∃ w' out,
    post_resources Reference.datetime_str Examples.body_with_class
      Examples.oid2 1700000000 (Examples.store_of [])
    = (Returns Examples.oid2, w')
    ∧ get_resource Reference.ObjectId Reference.datetime_str Reference.regex_i
        Examples.oid2 w'
      = (Returns (Some out), w')
    ∧ out !! "class_" = Some VNull
    ∧ out !! "class" = None
    ∧ map_Forall (λ _ v, v ≠ VStr "10") out.
Proof.
  destruct (create_then_get Reference.ObjectId Reference.datetime_str
              Reference.regex_i (Examples.store_of []) _ Examples.notes
              Examples.oid2 1700000000 eq_refl eq_refl eq_refl)
    as (w' & Hcreate & Hget).
  exists w', (fetched_doc Examples.notes Examples.oid2 1700000000).
  split; [exact Hcreate|]. split; [exact Hget|].
  split; [by vm_compute|]. split; [by vm_compute|].
  apply map_Forall_to_list. vm_compute. repeat constructor; discriminate.
Qed.

(** The evaluation instance reads a pattern without metacharacters letter
    for letter. *)
Lemma reference_read_plain q :
  Reference.plain q = true →
  ∃ atoms, Reference.read_pattern q = Some atoms
           ∧ ∀ s, Reference.match_here atoms s = starts_with_ci q s.
Proof.
  induction q as [|c q IH]; cbn; intros Hq.
  - exists []. split; [done|]. by intros [].
  - apply andb_prop in Hq as [Hc Hq]. destruct (IH Hq) as (atoms & -> & Hm).
    assert (Hdot : bool_decide (c = "."%char) = false).
    { apply bool_decide_eq_false_2. intros ->. by vm_compute in Hc. }
    rewrite Hdot. apply negb_true_iff in Hc. rewrite Hc. cbn.
    eexists. split; [done|]. intros [|b s]; cbn; [done|].
    rewrite Hm. f_equal. apply bool_decide_ext. split; congruence.
Qed.

Lemma reference_regex_plain q :
  Reference.plain q = true →
  ∃ m, Reference.regex_i q = Some m ∧ ∀ s, m s = contains_ci q s.
Proof.
  intros Hq. destruct (reference_read_plain q Hq) as (atoms & Hread & Hm).
  unfold Reference.regex_i. rewrite Hread. cbn. eexists. split; [done|].
  induction s as [|c s IH]; cbn; rewrite Hm; [done|]. by rewrite IH.
Qed.

(** C5, at a pattern without metacharacters: the listing is the literal
    search. *)
Lemma list_resources_q_is_a_pattern_witness :
  ∃ items,
    list_resources Reference.datetime_str Reference.regex_i (Some "ALGEBRA")
      None None 24 (Examples.store_of [Examples.algebra; Examples.draft])
    = (Returns items, Examples.store_of [Examples.algebra; Examples.draft])
    ∧ ∀ item, item ∈ items →
        ∃ d, item = serialize_doc Reference.datetime_str (Some d)
             ∧ any_field_matches (contains_ci "ALGEBRA") d = true.
Proof.
  pose proof (list_resources_q_is_a_pattern Reference.datetime_str
                Reference.regex_i
                (Examples.store_of [Examples.algebra; Examples.draft]) _
                "ALGEBRA" None None 24 eq_refl ltac:(discriminate)) as H.
  destruct (reference_regex_plain "ALGEBRA" eq_refl) as (m & Hm & Hlit).
  rewrite Hm in H. destruct H as (items & Hret & _ & Hin & _ & Hliteral).
  exists items. split; [exact Hret|].
  intros item Hitem. destruct (Hin item Hitem) as (d & _ & Hw & ->).
  exists d. split; [done|].
  rewrite (Hliteral Hlit d) in Hw. cbn in Hw. by rewrite andb_true_r in Hw.
Defined.

(** C5, the claim as stated fails: the pattern [.] lists a document none of
    whose searched fields contains a full stop. *)
Lemma list_resources_dot_lists_everything :
  (list_resources Reference.datetime_str Reference.regex_i (Some ".")
     None None 24 (Examples.store_of [Examples.algebra])).1
  = Returns [serialize_doc Reference.datetime_str (Some Examples.algebra)]
  ∧ any_field_matches (contains_ci ".") Examples.algebra = false.
Proof. split; vm_compute; reflexivity. Qed.

(** C6, at the default limit. *)
Lemma get_resources_sorted_bounded_witness :
  ∃ items,
    get_resources Reference.datetime_str Reference.regex_i None None None None
      (Examples.store_of [Examples.draft; Examples.algebra])
    = (Returns items, Examples.store_of [Examples.draft; Examples.algebra])
    ∧ StronglySorted newest_first items
    ∧ Z.of_nat (length items) ≤ 24.
Proof.
  destruct (get_resources_sorted_bounded Reference.datetime_str
              Reference.regex_i
              (Examples.store_of [Examples.draft; Examples.algebra])
              None None None None) as (Hitems & Hret & _).
  destruct (Hret _ eq_refl ltac:(discriminate)) as [items Heq].
  exists items. split; [exact Heq|].
  destruct (Hitems _ _ Heq) as [Hsorted Hbound].
  split; [exact Hsorted|]. by apply Hbound.
Defined.

(** C6, the claim as stated fails: [limit=0] lifts the bound, and the one
    stored document is listed. *)
Lemma get_resources_limit_zero_is_no_limit :
  ∃ items,
    (get_resources Reference.datetime_str Reference.regex_i None None None
       (Some 0) (Examples.store_of [Examples.algebra])).1
    = Returns items
    ∧ ¬ Z.of_nat (length items) ≤ 0.
Proof.
  exists [serialize_doc Reference.datetime_str (Some Examples.algebra)].
  split; [vm_compute; reflexivity|]. cbn [length]. lia.
Qed.

(** ** Closed instances of the further properties *)

Abbreviation R_get_resource :=
  (get_resource Reference.ObjectId Reference.datetime_str Reference.regex_i).
Abbreviation R_like_resource :=
  (like_resource Reference.ObjectId Reference.datetime_str Reference.regex_i).
Abbreviation R_list_resources :=
  (list_resources Reference.datetime_str Reference.regex_i).
Abbreviation R_serve :=
  (serve Reference.ObjectId Reference.datetime_str Reference.regex_i).

(** X1, at a stored document. *)
Lemma get_resource_returns_stored_witness :
  ∃ out,
    R_get_resource Examples.oid1 (Examples.store_of [Examples.algebra])
    = (Returns (Some out), Examples.store_of [Examples.algebra])
    ∧ out !! "id" = Some (VStr Examples.oid1)
    ∧ out !! "_id" = None
    ∧ ∀ k, k ≠ "_id" → k ≠ "id" → out !! k = Examples.algebra !! k.
Proof.
  eapply (get_resource_returns_stored Reference.ObjectId Reference.datetime_str
            Reference.regex_i (Examples.store_of [Examples.algebra]));
    reflexivity.
Defined.

(** Worlds of the closed instances below. *)
Abbreviation two_documents :=
  (Examples.store_of [Examples.algebra; Examples.mislabeled]).

(** X4, at the first of two stored documents. *)
Lemma like_resource_frame_witness :
  environ (R_like_resource Examples.oid1 two_documents).2
  = environ two_documents
  ∧ length (documents (R_like_resource Examples.oid1 two_documents).2)
    = length (documents two_documents)
  ∧ (∃ d', List.find (has_id Examples.oid1)
             (documents (R_like_resource Examples.oid1 two_documents).2)
           = Some d'
           ∧ likes_of d' = likes_of Examples.algebra + 1
           ∧ ∀ k, k ≠ "likes" → d' !! k = Examples.algebra !! k)
  ∧ ∀ oid', oid' ≠ Examples.oid1 →
      List.find (has_id oid')
        (documents (R_like_resource Examples.oid1 two_documents).2)
      = List.find (has_id oid') (documents two_documents).
Proof.
  eapply (like_resource_frame Reference.ObjectId Reference.datetime_str
            Reference.regex_i two_documents _
            Examples.oid1 Examples.oid1 Examples.algebra); reflexivity.
Defined.

(** X5, at a document whose counter is text. *)
Lemma like_resource_refused_witness :
  ∃ detail,
    R_like_resource Examples.oid2
      (Examples.store_of [Examples.algebra; Examples.mislabeled])
    = (Raises (HTTPException 500 detail),
       Examples.store_of [Examples.algebra; Examples.mislabeled]).
Proof.
  eapply (like_resource_refused Reference.ObjectId Reference.datetime_str
            Reference.regex_i
            (Examples.store_of [Examples.algebra; Examples.mislabeled]) _
            Examples.oid2 Examples.oid2 Examples.mislabeled); reflexivity.
Defined.

(** X6, at a stored document. *)
Lemma like_then_get_witness :
  (R_get_resource Examples.oid1
     (R_like_resource Examples.oid1 (Examples.store_of [Examples.algebra])).2).1
  = (R_like_resource Examples.oid1 (Examples.store_of [Examples.algebra])).1.
Proof.
  eapply (like_then_get Reference.ObjectId Reference.datetime_str
            Reference.regex_i (Examples.store_of [Examples.algebra]) _
            Examples.oid1 Examples.oid1 Examples.algebra); reflexivity.
Defined.

(** X7, after a creation, two likes, a listing and a refused like. *)
Lemma served_documents_kept_witness :
  ∃ d', List.find (has_id Examples.oid1)
          (documents
             (foldl R_serve two_documents
                [PostResources Examples.body_with_class
                   "aaaaaaaaaaaaaaaaaaaaaaaa" 1700000001;
                 PostLike Examples.oid1; GetResources None None None None;
                 PostLike Examples.oid1; PostLike Examples.oid2]))
        = Some d'
        ∧ likes_of Examples.algebra ≤ likes_of d'
        ∧ ∀ k, k ≠ "likes" → d' !! k = Examples.algebra !! k.
Proof.
  apply (served_documents_kept Reference.ObjectId Reference.datetime_str
           Reference.regex_i two_documents _ Examples.oid1 Examples.algebra).
  reflexivity.
Defined.

(** X9, at a collection with one document of the subject and type asked
    for and one of another type. *)
Lemma list_resources_exact_filters_witness :
  ∃ items,
    R_list_resources None (Some "Math") (Some "notes") 24
      (Examples.store_of [Examples.math_paper; Examples.math_notes])
    = (Returns items,
       Examples.store_of [Examples.math_paper; Examples.math_notes])
    ∧ ∀ item, item ∈ items →
        ∃ d, d !! "subject" = Some (VStr "Math")
             ∧ d !! "type" = Some (VStr "notes")
             ∧ item = serialize_doc Reference.datetime_str (Some d).
Proof.
  destruct (list_resources_exact_filters Reference.datetime_str
              Reference.regex_i
              (Examples.store_of [Examples.math_paper; Examples.math_notes]) _
              "Math" "notes" 24 eq_refl ltac:(discriminate)
              ltac:(discriminate)) as (items & Hret & Hin & _).
  exists items. split; [exact Hret|].
  intros item Hitem. destruct (Hin item Hitem) as (d & _ & H1 & H2 & ->).
  by exists d.
Defined.

(** X10, at empty parameters and the default limit. *)
Lemma list_resources_no_criteria_witness :
  ∃ items,
    (R_list_resources (Some "") None (Some "") 24
       (Examples.store_of [Examples.math_paper; Examples.math_notes])).1
    = Returns items
    ∧ items ≡ₚ map (λ d, serialize_doc Reference.datetime_str (Some d))
                 [Examples.math_paper; Examples.math_notes].
Proof.
  destruct (list_resources_no_criteria Reference.datetime_str
              Reference.regex_i
              (Examples.store_of [Examples.math_paper; Examples.math_notes]) _
              (Some "") None (Some "") 24 eq_refl eq_refl eq_refl eq_refl)
    as [_ Hall].
  apply Hall. right. vm_compute. lia.
Defined.

(** X12, at an item of a listing of two stored documents. *)
Lemma list_resources_hides_internal_id_witness :
  ∃ out : Doc,
    serialize_doc Reference.datetime_str (Some Examples.math_paper) = Some out
    ∧ out !! "_id" = None.
Proof.
  apply (list_resources_hides_internal_id Reference.datetime_str
           Reference.regex_i
           (Examples.store_of [Examples.math_notes; Examples.math_paper])
           (Examples.store_of [Examples.math_notes; Examples.math_paper])
           None None None 0
           (map (λ d, serialize_doc Reference.datetime_str (Some d))
              [Examples.math_notes; Examples.math_paper])).
  - vm_compute. reflexivity.
  - cbn [map]. apply list_elem_of_In. right. by left.
Defined.

(** X14, at a stored document. *)
Lemma serialize_doc_keys_witness :
  dom (<["id" := VStr Examples.oid1]> (delete "_id" Examples.algebra))
  = {["id"]} ∪ dom Examples.algebra ∖ {["_id"]}.
Proof.
  apply (serialize_doc_keys Reference.datetime_str Examples.algebra).
  reflexivity.
Defined.

(** X15, at the body of the spec's example with a ["class"] key, and at a
    body whose title is a number. *)
Lemma post_resources_validates_witness :
  (∃ payload,
     CreateResource_validate Examples.body_with_class = Some payload
     ∧ post_resources Reference.datetime_str Examples.body_with_class
         Examples.oid2 1700000000 (Examples.store_of [])
       = create_resource Reference.datetime_str payload Examples.oid2
           1700000000 (Examples.store_of []))
  ∧ post_resources Reference.datetime_str
      (<["title" := JNumber 7]> Examples.body_with_class)
      Examples.oid2 1700000000 (Examples.store_of [])
    = (Raises (HTTPException 422 "Unprocessable Entity"),
       Examples.store_of []).
Proof.
  split.
  - apply (post_resources_validates Reference.datetime_str
             Examples.body_with_class). reflexivity.
  - apply (post_resources_validates Reference.datetime_str
             (<["title" := JNumber 7]> Examples.body_with_class)).
    reflexivity.
Defined.

(** X16, at the spec's example on an empty collection. *)
Lemma create_then_like_witness :
  ∃ out,
    (R_like_resource Examples.oid2
       (create_resource Reference.datetime_str Examples.notes Examples.oid2
          1700000000 (Examples.store_of [])).2).1
    = Returns (Some out)
    ∧ out !! "likes" = Some (VInt 1)
    ∧ out !! "id" = Some (VStr Examples.oid2)
    ∧ ∀ k v, model_dump Examples.notes !! k = Some v → out !! k = Some v.
Proof.
  eapply (create_then_like Reference.ObjectId Reference.datetime_str
            Reference.regex_i (Examples.store_of [])); reflexivity.
Defined.

(** X17, at the key ["class"]. *)
Lemma validate_ignores_unknown_keys_witness :
  CreateResource_validate
    (<["class" := JString "10"]> (body_of Examples.notes))
  = CreateResource_validate (body_of Examples.notes).
Proof.
  apply validate_ignores_unknown_keys.
  match goal with
  | |- ?P => apply (bool_decide_unpack P); vm_compute; exact I
  end.
Defined.

(** X19, at a field the payload left out and at a key of no field. *)
Lemma model_dump_has_every_field_witness :
  is_Some (model_dump Examples.notes !! "description")
  ∧ ¬ is_Some (model_dump Examples.notes !! "likes").
Proof.
  split.
  - apply model_dump_has_every_field.
    match goal with
    | |- ?P => apply (bool_decide_unpack P); vm_compute; exact I
    end.
  - intros H. apply model_dump_has_every_field in H. revert H.
    match goal with
    | |- ?P → False => apply (bool_decide_unpack (¬ P)); vm_compute; exact I
    end.
Defined.

(** X22, at a store that lists twelve collections. *)
Lemma test_database_bounds_witness :
  ∃ response names,
    (test_database
       (mkWorld ∅ (module_loaded (Some (mkDatabase None
          (Returns ["a"; "b"; "c"; "d"; "e"; "f"; "g"; "h"; "i"; "j"; "k"; "l"])
          ∅))))).1
    = Returns response
    ∧ response !! "collections" = Some (RList names)
    ∧ (length names ≤ 10)%nat
    ∧ names `prefix_of`
        ["a"; "b"; "c"; "d"; "e"; "f"; "g"; "h"; "i"; "j"; "k"; "l"].
Proof.
  destruct (test_database_bounds
              (mkWorld ∅ (module_loaded (Some (mkDatabase None
                 (Returns ["a"; "b"; "c"; "d"; "e"; "f"; "g"; "h"; "i"; "j";
                           "k"; "l"]) ∅)))))
    as (response & names & H1 & H2 & H3 & H4).
  exists response, names. split; [exact H1|]. split; [exact H2|].
  split; [exact H3|]. by eapply H4.
Defined.

(** ** Closed instances of the amended claims *)

(** C1, the claim as stated fails: the id of a stored document whose
    counter was stored as text is answered with 500, and nothing is
    incremented. *)
Lemma like_resource_text_counter_is_500 :
  List.find (has_id Examples.oid2) (documents two_documents)
  = Some Examples.mislabeled
  ∧ Examples.mislabeled !! "likes" = Some (VStr "many")
  ∧ status_of (R_like_resource Examples.oid2 two_documents).1 = 500
  ∧ (R_like_resource Examples.oid2 two_documents).2 = two_documents.
Proof. repeat split; vm_compute; reflexivity. Qed.

(** C8, with the handle there and the store offline. *)
Lemma test_database_always_answers_witness :
  ∃ response,
    test_database Examples.offline = (Returns response, Examples.offline)
    ∧ response !! "connection_status" = Some (RStr "Connected")
    ∧ ∃ e, response !! "database"
           = Some (RStr ("⚠️  Connected but Error: "
                         +:+ py_slice 50 (exn_str e))).
Proof.
  destruct (test_database_always_answers Examples.offline)
    as (response & Hret & _ & Hstatus & Hfailure).
  exists response. split; [exact Hret|]. split; [exact Hstatus|].
  apply Hfailure; reflexivity.
Defined.

(** C8, the claim as stated fails: the store refuses the listing of its
    collections with a connection error, and the report still says
    ["Connected"]. *)
Lemma test_database_connected_while_listing_fails :
  store_answers Examples.listing_fails = false
  ∧ ∃ response,
      (test_database Examples.listing_fails).1 = Returns response
      ∧ response !! "connection_status" = Some (RStr "Connected")
      ∧ response !! "database"
        = Some (RStr "⚠️  Connected but Error: connection refused").
Proof.
  split; [reflexivity|].
  destruct (test_database_world Examples.listing_fails).
  eexists. split; [reflexivity|]. split; reflexivity.
Qed.



(** X23, at a store that cannot be reached. *)
Lemma offline_store_is_500_witness :
  R_list_resources None None None 24 Examples.offline
  = (Raises (HTTPException 500 "No servers found yet"), Examples.offline)
  ∧ R_get_resource Examples.oid1 Examples.offline
    = (Raises (HTTPException 500 "No servers found yet"), Examples.offline)
  ∧ R_get_resource "not-an-id" Examples.offline
    = (Raises (HTTPException 400 "Invalid id"), Examples.offline).
Proof.
  destruct (offline_store_is_500 Reference.ObjectId Reference.datetime_str
              Reference.regex_i Examples.offline _ _ Examples.oid1
              Examples.notes Examples.oid2 0 None None None 24 eq_refl)
    as (Hlist & _ & Hget & _).
  destruct (offline_store_is_500 Reference.ObjectId Reference.datetime_str
              Reference.regex_i Examples.offline _ _ "not-an-id"
              Examples.notes Examples.oid2 0 None None None 24 eq_refl)
    as (_ & _ & Hbad & _).
  split; [exact Hlist|]. split; [exact Hget|exact Hbad].
Defined.

(** The cut of a message counts characters, not bytes: the check mark is
    one character of three bytes. *)
Example py_slice_counts_characters :
  py_slice 2 "✅ Connected" = "✅ " ∧ String.length "✅ " = 4%nat
  ∧ characters "✅ " = 2%nat.
Proof. repeat split; vm_compute; reflexivity. Qed.
